(** * pysip2 shell: command dispatch and session state

    A shallow embedding of [pysip2/shell.py]: the [CommandRunner] class
    (command registry, handlers, [run]) and the [ConfigHandler] loader,
    together with the parts of the Python runtime the dispatcher leans on
    ([shlex.split], [int], [repr] of a list of strings).

    Conventions.
    - A Python [str] is a Rocq [string]; each character stands for the code
      point with the same number (0..255).
    - [None] or a [str] (the values the configuration fields take) is an
      [option string].
    - The return value of a handler is a [pyret]: [None], [True] or [False].
    - A computation is a function from the system state to a result and a
      new system state; a raised exception keeps the state reached so far,
      as in Python.
    - [gettext]'s [_] is the identity (no message catalogue is installed by
      the program).
    - The protocol client, [logging.config] and [configparser] are
      collaborators: the model is given what each call into them answers,
      a value or an exception. *)

From Stdlib Require Import ZArith Ascii String List Bool Lia.
From stdpp Require Import base option list strings gmap fin_maps.
Import ListNotations.

Local Open Scope string_scope.
Local Open Scope Z_scope.

(* ------------------------------------------------------------------ *)
(** ** Python values, exceptions and results *)

(** The exceptions the modelled code can raise.  [ClientError] stands for
    whatever the protocol client raises, [LibraryError] for an exception
    of a class that [configparser] or [logging] defines, by its name. *)
Inductive exn : Type :=
  | IndexError (msg : string)
  | ValueError (msg : string)
  | TypeError (msg : string)
  | AttributeError (msg : string)
  | KeyError (key : string)
  | SystemExit (code : Z)
  | ClientError (msg : string)
  | LibraryError (cls msg : string).

Inductive res (A : Type) : Type :=
  | Ok (a : A)
  | Raise (e : exn).
Arguments Ok {A} a.
Arguments Raise {A} e.

(** What a handler hands back: no value, or a boolean. *)
Inductive pyret : Type :=
  | PyNone
  | PyBool (b : bool).

Abbreviation PyTrue := (PyBool true).
Abbreviation PyFalse := (PyBool false).

(** Truth value of a returned object, as [if f(...):] tests it. *)
Definition truthy (v : pyret) : bool :=
  match v with
  | PyNone => false
  | PyBool b => b
  end.

(** [None] or a string. *)
Abbreviation pyval := (option string).

(** [str.format] of a [None]-or-string argument. *)
Definition py_str (v : pyval) : string :=
  match v with
  | None => "None"
  | Some s => s
  end.

(* ------------------------------------------------------------------ *)
(** ** Characters *)

Definition chr (n : nat) : ascii := ascii_of_nat n.
Definition ord (c : ascii) : nat := nat_of_ascii c.

Definition char_eqb (a b : ascii) : bool := Ascii.eqb a b.

Fixpoint char_in (c : ascii) (s : string) : bool :=
  match s with
  | EmptyString => false
  | String d s' => char_eqb c d || char_in c s'
  end.

Definition TAB : ascii := chr 9.
Definition LF : ascii := chr 10.
Definition CR : ascii := chr 13.
Definition BACKSLASH : ascii := chr 92.
Definition SQUOTE : ascii := chr 39.
Definition DQUOTE : ascii := chr 34.

Definition str1 (c : ascii) : string := String c EmptyString.

(** [s] between double quotes. *)
Definition dquoted (s : string) : string := str1 DQUOTE ++ s ++ str1 DQUOTE.

Definition str_is_empty (s : string) : bool :=
  match s with
  | EmptyString => true
  | _ => false
  end.

(* ------------------------------------------------------------------ *)
(** ** [shlex.split(line, comments=True)]

    The standard library's lexer in POSIX mode, as [shlex.split] sets it
    up: [whitespace_split = True], [punctuation_chars = ''],
    [commenters = '#'].  [read_tokens] is [list(lex)]: the loop of
    [shlex.read_token], restarted after each emitted token. *)
Module Shlex.

Definition whitespace : string :=
  String " " (String TAB (String CR (String LF EmptyString))).
Definition commenters : string := "#".
Definition quotes : string := String SQUOTE (String DQUOTE EmptyString).
Definition escape : string := str1 BACKSLASH.
Definition escapedquotes : string := str1 DQUOTE.

(** [self.state]: [' '], ['a'], a quote character, or an escape
    character.  ([None], end of file, is the end of the input list.) *)
Inductive lexstate : Type :=
  | InSpace
  | InWord
  | InQuote (q : ascii)
  | InEscape (esc : ascii).

(** [if self.token or (self.posix and quoted): break] followed by the end
    of [read_token]: the token is handed out, unless it is empty and
    unquoted, which [read_token] turns into [None] and ends the
    iteration.  [rest] is the continuation of the iteration. *)
Definition emit (quoted : bool) (token : string)
    (rest : res (list string)) : res (list string) :=
  if negb quoted && str_is_empty token then Ok []
  else match rest with
       | Ok ts => Ok (token :: ts)
       | Raise e => Raise e
       end.

(** [skip] is true while [self.instream.readline()] is still consuming
    the rest of a comment line. *)
Fixpoint read_tokens (skip : bool) (state escapedstate : lexstate)
    (quoted : bool) (token : string) (instream : list ascii)
    : res (list string) :=
  match instream with
  | [] =>
      match state with
      | InSpace | InWord => emit quoted token (Ok [])
      | InQuote _ => Raise (ValueError "No closing quotation")
      | InEscape _ => Raise (ValueError "No escaped character")
      end
  | nextchar :: instream' =>
      if skip then
        read_tokens (negb (char_eqb nextchar LF)) state escapedstate
                    quoted token instream'
      else
      match state with
      | InSpace =>
          if char_in nextchar whitespace then
            if negb (str_is_empty token) || quoted then
              emit quoted token
                (read_tokens false InSpace InSpace false "" instream')
            else read_tokens false InSpace escapedstate quoted token instream'
          else if char_in nextchar commenters then
            read_tokens true InSpace escapedstate quoted token instream'
          else if char_in nextchar escape then
            read_tokens false (InEscape nextchar) InWord quoted token instream'
          else if char_in nextchar quotes then
            read_tokens false (InQuote nextchar) escapedstate quoted token
                        instream'
          else
            read_tokens false InWord escapedstate quoted (str1 nextchar)
                        instream'
      | InQuote q =>
          if char_eqb nextchar q then
            read_tokens false InWord escapedstate true token instream'
          else if char_in nextchar escape && char_in q escapedquotes then
            read_tokens false (InEscape nextchar) (InQuote q) true token
                        instream'
          else
            read_tokens false (InQuote q) escapedstate true
                        (token ++ str1 nextchar) instream'
      | InEscape esc =>
          let token' :=
            match escapedstate with
            | InQuote q =>
                if negb (char_eqb nextchar esc) && negb (char_eqb nextchar q)
                then token ++ str1 esc
                else token
            | _ => token
            end in
          read_tokens false escapedstate escapedstate quoted
                      (token' ++ str1 nextchar) instream'
      | InWord =>
          if char_in nextchar whitespace then
            if negb (str_is_empty token) || quoted then
              emit quoted token
                (read_tokens false InSpace InSpace false "" instream')
            else read_tokens false InSpace escapedstate quoted token instream'
          else if char_in nextchar commenters then
            if negb (str_is_empty token) || quoted then
              emit quoted token
                (read_tokens true InSpace InSpace false "" instream')
            else read_tokens true InSpace escapedstate quoted token instream'
          else if char_in nextchar quotes then
            read_tokens false (InQuote nextchar) escapedstate quoted token
                        instream'
          else if char_in nextchar escape then
            read_tokens false (InEscape nextchar) InWord quoted token instream'
          else
            read_tokens false InWord escapedstate quoted
                        (token ++ str1 nextchar) instream'
      end
  end.

Definition split (s : string) : res (list string) :=
  read_tokens false InSpace InSpace false "" (list_ascii_of_string s).

End Shlex.

(* ------------------------------------------------------------------ *)
(** ** [str(list(args))]: the [repr] of a list of strings

    [repr] of a [str] picks the quote character, escapes it and the
    backslash, writes tab, line feed and carriage return as two-character
    escapes, and every other non-printable character as [\xhh]. *)
Module PyRepr.

Definition hexdigits : list ascii := list_ascii_of_string "0123456789abcdef".

Definition hexdigit (n : nat) : ascii := nth n hexdigits "0"%char.

Definition hex_escape (c : ascii) : string :=
  String BACKSLASH
    (String "x"%char
       (String (hexdigit (ord c / 16)%nat)
          (str1 (hexdigit (ord c mod 16)%nat)))).

(** [str.isprintable] on the code points 127..255: the controls
    127..159, the no-break space 160 and the soft hyphen 173 are not. *)
Definition isprintable_high (n : nat) : bool :=
  (161 <=? n)%nat && negb (n =? 173)%nat.

(** The quote [repr] uses: a double quote only when the string has a
    single quote and no double quote. *)
Definition quote_for (s : string) : ascii :=
  let l := list_ascii_of_string s in
  if existsb (char_eqb SQUOTE) l && negb (existsb (char_eqb DQUOTE) l)
  then DQUOTE else SQUOTE.

Definition repr_char (quote c : ascii) : string :=
  if char_eqb c quote || char_eqb c BACKSLASH then String BACKSLASH (str1 c)
  else if char_eqb c TAB then String BACKSLASH "t"
  else if char_eqb c LF then String BACKSLASH "n"
  else if char_eqb c CR then String BACKSLASH "r"
  else if (ord c <? 32)%nat || (ord c =? 127)%nat then hex_escape c
  else if (ord c <? 127)%nat then str1 c
  else if isprintable_high (ord c) then str1 c
  else hex_escape c.

Fixpoint repr_chars (quote : ascii) (s : string) : string :=
  match s with
  | EmptyString => EmptyString
  | String c s' => repr_char quote c ++ repr_chars quote s'
  end.

Definition repr_str (s : string) : string :=
  let q := quote_for s in
  str1 q ++ repr_chars q s ++ str1 q.

(** [', '.join(...)] *)
Fixpoint join (sep : string) (l : list string) : string :=
  match l with
  | [] => ""
  | [x] => x
  | x :: l' => x ++ sep ++ join sep l'
  end.

Definition str_list (l : list string) : string :=
  "[" ++ join ", " (map repr_str l) ++ "]".

End PyRepr.

(* ------------------------------------------------------------------ *)
(** ** [int(x)] for [None] or a [str]

    [int(None)] is a [TypeError].  A string is stripped of surrounding
    white space and must then be an optional sign followed by decimal
    digits, single underscores allowed between digits; anything else is a
    [ValueError].  (The interpreter's limit on the number of digits is not
    part of the model.) *)
Module PyInt.

Definition is_space (c : ascii) : bool :=
  let n := ord c in
  ((9 <=? n)%nat && (n <=? 13)%nat) || (n =? 32)%nat
  || (n =? 133)%nat || (n =? 160)%nat.

Definition digit_value (c : ascii) : option Z :=
  let n := ord c in
  if (48 <=? n)%nat && (n <=? 57)%nat then Some (Z.of_nat (n - 48)) else None.

Fixpoint skip_space (l : list ascii) : list ascii :=
  match l with
  | c :: l' => if is_space c then skip_space l' else l
  | [] => []
  end.

(** The digits after the first one; returns the value and what follows. *)
Fixpoint more_digits (acc : Z) (l : list ascii) : option (Z * list ascii) :=
  match l with
  | [] => Some (acc, [])
  | c :: l' =>
      match digit_value c with
      | Some d => more_digits (acc * 10 + d) l'
      | None =>
          if char_eqb c "_"%char then
            match l' with
            | c2 :: l'' =>
                match digit_value c2 with
                | Some d => more_digits (acc * 10 + d) l''
                | None => None
                end
            | [] => None
            end
          else Some (acc, l)
      end
  end.

Definition digits (l : list ascii) : option (Z * list ascii) :=
  match l with
  | c :: l' =>
      match digit_value c with
      | Some d => more_digits d l'
      | None => None
      end
  | [] => None
  end.

Definition signed (l : list ascii) : Z * list ascii :=
  match l with
  | c :: l' =>
      if char_eqb c "+"%char then (1, l')
      else if char_eqb c "-"%char then (-1, l')
      else (1, l)
  | [] => (1, [])
  end.

Definition invalid_literal (s : string) : exn :=
  ValueError ("invalid literal for int() with base 10: " ++ PyRepr.repr_str s).

Definition of_str (s : string) : res Z :=
  let '(sign, l) := signed (skip_space (list_ascii_of_string s)) in
  match digits l with
  | Some (n, rest) =>
      match skip_space rest with
      | [] => Ok (sign * n)
      | _ => Raise (invalid_literal s)
      end
  | None => Raise (invalid_literal s)
  end.

Definition int (v : pyval) : res Z :=
  match v with
  | None =>
      Raise (TypeError "int() argument must be a string, a bytes-like object or a real number, not 'NoneType'")
  | Some s => of_str s
  end.

End PyInt.

(* ------------------------------------------------------------------ *)
(** ** [ConfigHandler] *)

(** An instance attribute: assigned, or not there at all (reading it is an
    [AttributeError]). *)
Inductive attr (A : Type) : Type :=
  | Unset
  | Assigned (a : A).
Arguments Unset {A}.
Arguments Assigned {A} a.

(** The attributes [__init__] assigns, and [location_code], which only
    [setup] assigns. *)
Record ConfigHandler : Type := {
  configfile : string;
  server : pyval;
  port : pyval;
  institution : pyval;
  username : pyval;
  password : pyval;
  autostart : bool;
  location_code : attr pyval
}.

Definition ConfigHandler_init : ConfigHandler :=
  {| configfile := "pysip2-client.ini";
     server := None;
     port := None;
     institution := None;
     username := None;
     password := None;
     autostart := false;
     location_code := Unset |}.

(** The six fields the file can set, reading one off the object, and
    assigning one: [self.<f> = v]. *)
Inductive field : Type :=
  | f_server | f_port | f_institution | f_username | f_password
  | f_location_code.

Definition field_name (f : field) : string :=
  match f with
  | f_server => "server"
  | f_port => "port"
  | f_institution => "institution"
  | f_username => "username"
  | f_password => "password"
  | f_location_code => "location_code"
  end.

Definition read_field (f : field) (c : ConfigHandler) : attr pyval :=
  match f with
  | f_server => Assigned (server c)
  | f_port => Assigned (port c)
  | f_institution => Assigned (institution c)
  | f_username => Assigned (username c)
  | f_password => Assigned (password c)
  | f_location_code => location_code c
  end.

Definition set_field (f : field) (v : pyval) (self : ConfigHandler)
    : ConfigHandler :=
  {| configfile := configfile self;
     server := match f with f_server => v | _ => server self end;
     port := match f with f_port => v | _ => port self end;
     institution :=
       match f with f_institution => v | _ => institution self end;
     username := match f with f_username => v | _ => username self end;
     password := match f with f_password => v | _ => password self end;
     autostart := autostart self;
     location_code :=
       match f with
       | f_location_code => Assigned v
       | _ => location_code self
       end |}.

(** The parser once [config.read(path)] has returned: for each section it
    has ([[DEFAULT]], which it always has, apart), and each option [get]
    finds in that section (the section's own options and those of
    [[DEFAULT]]), what [get] answers for the option: the value after
    interpolation, or the exception that interpolation raises
    ([InterpolationSyntaxError] for a [%] that is followed neither by [%]
    nor by [(], ...). *)
Abbreviation parsed_config := (gmap string (gmap string (res string))).

(** What the two libraries make of the file at a path.  [fileConfig] is
    the exception that [logging.config.fileConfig(path)] raises, if it
    raises (the file is not there, it has no logging sections, ...).
    [read] is the parser after [ConfigParser().read(path)], or the
    exception that [read] raises (a line that cannot be parsed, an option
    given twice, ...); a file that is not there is read as an empty
    one. *)
Record config_file : Type := {
  fileConfig : option exn;
  read : res parsed_config
}.

(** [config['client'].get(name, None)] *)
Definition section_get (section : gmap string (res string))
    (name : string) : res pyval :=
  match section !! name with
  | None => Ok None
  | Some (Ok value) => Ok (Some value)
  | Some (Raise e) => Raise e
  end.

(** [self.<f> = config['client'].get('<f>', None)], followed by the
    statements [rest]: when [get] raises, the assignment is not made and
    the statements after it are not run. *)
Definition assign_from (section : gmap string (res string)) (f : field)
    (rest : ConfigHandler -> res unit * ConfigHandler)
    (self : ConfigHandler) : res unit * ConfigHandler :=
  match section_get section (field_name f) with
  | Raise e => (Raise e, self)
  | Ok v => rest (set_field f v self)
  end.

(** [setup] on the object [self], given what the libraries make of the
    file [self.configfile] names: how the call ends (it returns, or an
    exception leaves it), and the object as the call leaves it.
    [logging.getLogger().setLevel('WARNING')] changes the level of the
    root logger only, which is no part of the state followed here. *)
Definition setup (file : config_file) (self : ConfigHandler)
    : res unit * ConfigHandler :=
  match fileConfig file with
  | Some e => (Raise e, self)
  | None =>
      match read file with
      | Raise e => (Raise e, self)
      | Ok config =>
          match config !! "client" with
          | None => (Ok tt, self)
          | Some section =>
              assign_from section f_server
                (assign_from section f_port
                   (assign_from section f_institution
                      (assign_from section f_username
                         (assign_from section f_password
                            (assign_from section f_location_code
                               (fun self => (Ok tt, self)))))))
                self
          end
      end
  end.

(* ------------------------------------------------------------------ *)
(** ** The protocol client, an external collaborator *)

(** What a call into the client comes back with. *)
Inductive answer (A : Type) : Type :=
  | Returns (a : A)
  | Fails (msg : string).
Arguments Returns {A} a.
Arguments Fails {A} msg.

(** [pysip2.client]: [W] is the state of the world the client lives in
    (sockets, server), [H] a client object, [R] a response message. *)
Class Collaborator (W H R : Type) : Type := {
  (** [pysip2.client.Client(server, port)] *)
  Client : pyval -> Z -> W -> answer H * W;
  (** [client.default_institution = institution] *)
  set_default_institution : H -> pyval -> W -> W;
  (** [client.connect()] *)
  client_connect : H -> W -> answer unit * W;
  (** [client.login(username, password, location_code)], as a truth value *)
  client_login : H -> pyval -> pyval -> pyval -> W -> answer bool * W;
  (** [client.sc_status()] *)
  client_sc_status : H -> W -> answer R * W;
  (** [client.patron_info_request(barcode)] *)
  client_patron_info_request : H -> string -> W -> answer R * W;
  (** [resp.get_fixed_field_by_name(name).value] *)
  fixed_field_value : R -> string -> answer pyval;
  (** [repr(resp)] *)
  resp_repr : R -> string
}.

(** The calls into the client, as a spy would record them. *)
Inductive call : Type :=
  | call_Client (server : pyval) (port : Z)
  | call_set_default_institution (institution : pyval)
  | call_connect
  | call_login (username password location_code : pyval)
  | call_sc_status
  | call_patron_info_request (barcode : string).

(** What the outside sees of a run: lines printed and calls made. *)
Inductive event : Type :=
  | Stdout (line : string)
  | Stderr (line : string)
  | Called (c : call).

Definition is_call (e : event) : bool :=
  match e with
  | Called _ => true
  | _ => false
  end.

Definition calls (t : list event) : list event := List.filter is_call t.

(* ------------------------------------------------------------------ *)
(** ** [CommandRunner]: the registry *)

(** The bound methods stored in the registry. *)
Inductive method : Type :=
  | m_help | m_echo | m_exit | m_connect | m_login | m_status | m_start
  | m_patron_info.

Record entry : Type := { fn : method; desc : string }.

(** [self.client], [self.commands] and [self.commands_sorted];
    [self.config] is the one [ConfigHandler] object of the process, kept
    in the system state below. *)
Record CommandRunner (H : Type) : Type := {
  client : option H;
  commands : gmap string entry;
  commands_sorted : list string
}.
Arguments client {H} _.
Arguments commands {H} _.
Arguments commands_sorted {H} _.

Definition add_command {H} (cmd : string) (f : method) (d : string)
    (self : CommandRunner H) : CommandRunner H :=
  {| client := client self;
     commands := <[cmd := {| fn := f; desc := d |}]> (commands self);
     commands_sorted := commands_sorted self ++ [cmd] |}.

Definition CommandRunner_init (H : Type) : CommandRunner H :=
  add_command "patron-info" m_patron_info
    "Send a 63 Patron Information Request message."
  (add_command "start" m_start
    ("Shortcut for a combination of " ++ dquoted "connect" ++ ", "
       ++ dquoted "login" ++ ", and " ++ dquoted "status" ++ " commands.")
  (add_command "status" m_status "Send a 99 SC Status request message."
  (add_command "login" m_login "Send a 93 Login request."
  (add_command "connect" m_connect
    "Open a network connection to the SIP server."
  (add_command "quit" m_exit "Exit shell"
  (add_command "exit" m_exit "Exit shell"
  (add_command "echo" m_echo "Echo command with arguments"
  (add_command "help" m_help "Display help message"
    {| client := None; commands := ∅; commands_sorted := [] |})))))))).

(* ------------------------------------------------------------------ *)
(** ** The system state and the computations over it *)

(** The dispatcher, the configuration object it shares with the start-up
    code, the world of the protocol client, and what has been printed and
    called so far. *)
Record system (W H : Type) : Type := {
  runner : CommandRunner H;
  config : ConfigHandler;
  world : W;
  trace : list event
}.
Arguments runner {W H} _.
Arguments config {W H} _.
Arguments world {W H} _.
Arguments trace {W H} _.

Section Dispatcher.

Context {W H R : Type} {C : Collaborator W H R}.

Definition M (A : Type) : Type := system W H -> res A * system W H.

Definition ret {A} (a : A) : M A := fun s => (Ok a, s).

Definition raise {A} (e : exn) : M A := fun s => (Raise e, s).

Definition bind {A B} (m : M A) (k : A -> M B) : M B :=
  fun s =>
    match m s with
    | (Ok a, s') => k a s'
    | (Raise e, s') => (Raise e, s')
    end.

(** [try: body / except: handler], the bare [except] that catches all. *)
Definition try_except {A} (body handler : M A) : M A :=
  fun s =>
    match body s with
    | (Ok a, s') => (Ok a, s')
    | (Raise _, s') => handler s'
    end.

Definition lift {A} (r : res A) : M A :=
  match r with
  | Ok a => ret a
  | Raise e => raise e
  end.

Definition log (e : event) : M unit :=
  fun s =>
    (Ok tt, {| runner := runner s; config := config s; world := world s;
               trace := trace s ++ [e] |}).

(** [print(line)] and [print(line, file=sys.stderr)] *)
Definition print (line : string) : M unit := log (Stdout line).
Definition print_stderr (line : string) : M unit := log (Stderr line).

Definition get_runner : M (CommandRunner H) := fun s => (Ok (runner s), s).
Definition get_config : M ConfigHandler := fun s => (Ok (config s), s).

(** [self.client = c] *)
Definition set_client (c : option H) : M unit :=
  fun s =>
    (Ok tt, {| runner := {| client := c;
                            commands := commands (runner s);
                            commands_sorted := commands_sorted (runner s) |};
               config := config s; world := world s; trace := trace s |}).

(** A call into the client: recorded, run on the world, and a failure
    raised as [ClientError]. *)
Definition client_call {A} (c : call) (f : W -> answer A * W) : M A :=
  fun s =>
    let '(a, w) := f (world s) in
    let s' := {| runner := runner s; config := config s; world := w;
                 trace := trace s ++ [Called c] |} in
    match a with
    | Returns x => (Ok x, s')
    | Fails msg => (Raise (ClientError msg), s')
    end.

(** [self.client.<name>]: [self.client] when it is a client, the
    [AttributeError] of [None] otherwise. *)
Definition NoneType_has_no (name : string) : exn :=
  AttributeError ("'NoneType' object has no attribute '" ++ name ++ "'").

Definition self_client (name : string) : M H :=
  fun s =>
    match client (runner s) with
    | Some h => (Ok h, s)
    | None => (Raise (NoneType_has_no name), s)
    end.

(** Reading an attribute that may never have been assigned. *)
Definition getattr {A} (cls name : string) (a : attr A) : M A :=
  match a with
  | Assigned x => ret x
  | Unset =>
      raise (AttributeError
               ("'" ++ cls ++ "' object has no attribute '" ++ name ++ "'"))
  end.

(** [l[i]] *)
Definition getitem {A} (what : string) (l : list A) (i : nat) : M A :=
  match l !! i with
  | Some x => ret x
  | None => raise (IndexError (what ++ " index out of range"))
  end.

(** [for x in l: body(x)] *)
Fixpoint for_each {A} (l : list A) (body : A -> M unit) : M unit :=
  match l with
  | [] => ret tt
  | x :: l' => bind (body x) (fun _ => for_each l' body)
  end.

End Dispatcher.

Declare Scope py_scope.
Delimit Scope py_scope with py.
Notation "'let!' x ':=' m 'in' k" := (bind m (fun x => k))
  (at level 10, x name, m at level 100, k at level 200) : py_scope.
Notation "'do!' m 'in' k" := (bind m (fun _ => k))
  (at level 10, m at level 100, k at level 200) : py_scope.

(* ------------------------------------------------------------------ *)
(** ** [CommandRunner]: the handlers and [run] *)

(** How a handler takes its positional arguments: [def f(self, *args)]
    takes any number, [def f(self, a1, ..., an)] exactly [n]. *)
Inductive signature : Type :=
  | VarPositional
  | Positional (n : nat).

Definition accepts (sg : signature) (nargs : nat) : bool :=
  match sg with
  | VarPositional => true
  | Positional n => (nargs =? n)%nat
  end.

(** Every handler of the class is declared [def name(self, *args)]. *)
Definition signature_of (m : method) : signature :=
  match m with
  | m_help | m_echo | m_exit | m_connect | m_login | m_status | m_start
  | m_patron_info => VarPositional
  end.

(** The [TypeError] of a call whose arguments do not fit the parameters. *)
Definition arity_error : exn :=
  TypeError "positional arguments do not match the parameters".

Section Handlers.

Context {W H R : Type} {C : Collaborator W H R}.

Local Open Scope py_scope.

Abbreviation handler := (list string -> M (W := W) (H := H) pyret).

Definition help : handler := fun args =>
  do! print "Commands:" in
  let! self := get_runner in
  do! for_each (commands_sorted self) (fun cmd =>
        match commands self !! cmd with
        | Some e => print ("  " ++ cmd ++ " - " ++ desc e)
        | None => raise (KeyError cmd)
        end) in
  ret PyTrue.

Definition exit : handler := fun args =>
  do! print "Goodbye" in
  raise (SystemExit 0).

Definition echo : handler := fun args =>
  do! print ("echo args=" ++ PyRepr.str_list args) in
  ret PyNone.

Definition connect : handler := fun args =>
  let! conf := get_config in
  let! p := lift (PyInt.int (port conf)) in
  let! c := client_call (call_Client (server conf) p)
                        (Client (server conf) p) in
  do! set_client (Some c) in
  let! c := self_client "default_institution" in
  do! client_call (call_set_default_institution (institution conf))
        (fun w => (Returns tt,
                   set_default_institution c (institution conf) w)) in
  let! failed :=
    try_except
      (let! c := self_client "connect" in
       do! client_call call_connect (client_connect c) in
       ret None)
      (do! print ("Unable to connect to server " ++ py_str (server conf)
                  ++ " port " ++ py_str (port conf)) in
       do! set_client None in
       ret (Some PyFalse)) in
  match failed with
  | Some r => ret r
  | None =>
      do! print "Connect OK" in
      ret PyTrue
  end.

Definition login : handler := fun args =>
  let! conf := get_config in
  let! c := self_client "login" in
  let! location := getattr "ConfigHandler" "location_code"
                           (location_code conf) in
  let! ok := client_call
               (call_login (username conf) (password conf) location)
               (client_login c (username conf) (password conf) location) in
  if ok : bool then
    do! print "Login OK" in
    ret PyTrue
  else
    do! print "Login Failed" in
    ret PyFalse.

Definition status : handler := fun args =>
  let! c := self_client "sc_status" in
  let! resp := client_call call_sc_status (client_sc_status c) in
  let! v := match fixed_field_value resp "online_status" with
            | Returns v => ret v
            | Fails msg => raise (ClientError msg)
            end in
  if bool_decide (v = Some "Y") then
    do! print "Server is online" in
    ret PyTrue
  else
    do! print "Server is NOT online" in
    do! print (resp_repr resp) in
    ret PyFalse.

Definition start : handler := fun args =>
  let! connected := connect args in
  if truthy connected then
    let! logged_in := login args in
    if truthy logged_in then
      do! status args in
      ret PyNone
    else ret PyNone
  else ret PyNone.

Definition patron_info : handler := fun args =>
  if (length args =? 0)%nat then
    do! print "Patron barcode required" in
    ret PyFalse
  else
    let! c := self_client "patron_info_request" in
    let! barcode := getitem "tuple" args 0 in
    let! resp := client_call (call_patron_info_request barcode)
                             (client_patron_info_request c barcode) in
    do! print (resp_repr resp) in
    ret PyTrue.

(** The code behind a bound method. *)
Definition body (m : method) : handler :=
  match m with
  | m_help => help
  | m_echo => echo
  | m_exit => exit
  | m_connect => connect
  | m_login => login
  | m_status => status
  | m_start => start
  | m_patron_info => patron_info
  end.

(** Calling [fn] on the unpacked [args]: the arguments are bound to the
    parameters, then the body runs. *)
Definition call_method (m : method) : handler := fun args =>
  if accepts (signature_of m) (length args) then body m args
  else raise arity_error.

Definition run (line : string) : M pyret :=
  let! tokens := lift (Shlex.split line) in
  let! command := getitem "list" tokens 0 in
  let args := drop 1 tokens in
  let! self := get_runner in
  match commands self !! command with
  | None =>
      do! print_stderr ("Command not found: " ++ command) in
      ret PyNone
  | Some e => call_method (fn e) args
  end.

(** [Console.interact] on the lines the operator types, up to the end of
    the input: each line goes to [run], whose value is dropped
    ([runsource] returns [False], so no line is ever continued); an
    exception that leaves [run] leaves the loop. *)
Fixpoint interact (lines : list string) : M unit :=
  match lines with
  | [] => ret tt
  | line :: lines' =>
      do! run line in
      interact lines'
  end.

End Handlers.

(* ------------------------------------------------------------------ *)
(** ** The start-up code: [usage], [ConfigHandler.read_ops], [__main__] *)

(** The text [usage] prints, line by line (the literal starts with a line
    break and ends with four spaces after the last one). *)
Definition usage_lines : list string :=
  [
     "";
     "";
     "    -h, --help";
     "        Display this help message";
     "";
     "    -c <file>, --config <file> ";
     "        Override the default configuration file.  The default file is ";
     "        'pysip2-client.ini' in the current working directory.";
     "";
     "    -a, --autostart";
     "        Automatically connect, login, and send a status request to the ";
     "        SIP server using the configuration options in the configuration ";
     "        .ini file.  Without specifying this option, the user must ";
     "        manually execute the 'start' command or a combination of";
     "        'connect', 'login', and 'status'.";
     "    "
  ].

Definition usage_text : string := PyRepr.join (str1 LF) usage_lines.

(** What [getopt.getopt(sys.argv[1:], "hac:", ["help", "autostart",
    "config="])] comes back with: the options found, each with its value,
    and the arguments left over; or a [GetoptError] and its message. *)
Inductive getopt_result : Type :=
  | GetoptError (msg : string)
  | Options (opts : list (string * string)) (args : list string).

Section Bootstrap.

Context {W H R : Type} {C : Collaborator W H R}.

Local Open Scope py_scope.

(** An assignment to an attribute of the [ConfigHandler] object. *)
Definition set_config (c : ConfigHandler) : M (W := W) (H := H) unit :=
  fun s =>
    (Ok tt, {| runner := runner s; config := c; world := world s;
               trace := trace s |}).

Definition usage {A} (exit_code : Z) : M (W := W) (H := H) A :=
  do! print usage_text in
  raise (SystemExit exit_code).

(** The body of the loop of [read_ops], for the option [o] with value
    [a]. *)
Definition read_option (o a : string) : M (W := W) (H := H) unit :=
  if String.eqb o "-h" || String.eqb o "--help" then
    usage 0
  else if String.eqb o "-a" || String.eqb o "--autostart" then
    let! self := get_config in
    set_config {| configfile := configfile self;
                  server := server self;
                  port := port self;
                  institution := institution self;
                  username := username self;
                  password := password self;
                  autostart := true;
                  location_code := location_code self |}
  else if String.eqb o "-c" || String.eqb o "--config" then
    let! self := get_config in
    set_config {| configfile := a;
                  server := server self;
                  port := port self;
                  institution := institution self;
                  username := username self;
                  password := password self;
                  autostart := autostart self;
                  location_code := location_code self |}
  else
    print_stderr "Uhandled option".

Definition read_ops (parsed : getopt_result) : M (W := W) (H := H) unit :=
  let! opts :=
    match parsed with
    | GetoptError err =>
        do! print_stderr err in
        usage 2
    | Options opts args => ret opts
    end in
  for_each opts (fun oa => read_option (fst oa) (snd oa)).

(** [config.setup()]: [files] gives, for a path, what the libraries make
    of the file there.  The object is left as [setup] leaves it, and the
    exception of [setup], if any, goes on to the caller. *)
Definition ConfigHandler_setup (files : string -> config_file)
    : M (W := W) (H := H) unit :=
  let! self := get_config in
  let loaded := setup (files (configfile self)) self in
  do! set_config (snd loaded) in
  lift (fst loaded).

(** The objects the script creates before anything runs: [ConfigHandler()]
    and [CommandRunner(config)]. *)
Definition initial_system (w : W) : system W H :=
  {| runner := CommandRunner_init H;
     config := ConfigHandler_init;
     world := w;
     trace := [] |}.

(** The script: options, configuration file, [start] when asked for, then
    the read loop over the lines typed. *)
Definition main (parsed : getopt_result) (files : string -> config_file)
    (lines : list string) : M (W := W) (H := H) unit :=
  do! read_ops parsed in
  do! ConfigHandler_setup files in
  let! conf := get_config in
  do! (if autostart conf then
         do! start [] in
         ret tt
       else ret tt) in
  interact lines.

End Bootstrap.

(* ------------------------------------------------------------------ *)
(** ** Vocabulary of the properties *)

(** [s] with [es] appended to what was printed and called. *)
Definition emitted {W H} (s : system W H) (es : list event) : system W H :=
  {| runner := runner s; config := config s; world := world s;
     trace := trace s ++ es |}.

(** A session handle is only ever held under a configuration whose port
    is a number. *)
Definition session_ok {W H} (s : system W H) : Prop :=
  client (runner s) = None \/ exists p, PyInt.int (port (config s)) = Ok p.

Section Specifications.

Context {W H R : Type} {C : Collaborator W H R}.

Local Open Scope py_scope.

(** [start] as the specification words it, "[connect] AND [login] AND
    [status] with short-circuit evaluation": Python's [x and y] runs [y]
    only when [x] is true. *)
Definition and_then (m1 m2 : M (W := W) (H := H) pyret) : M pyret :=
  let! r := m1 in
  if truthy r then m2 else ret r.

Definition start_spec (args : list string) : M (W := W) (H := H) pyret :=
  and_then (connect args) (and_then (login args) (status args)).

(** What a run leaves behind apart from the value it returns: the
    exception, if one was raised, and the state. *)
Definition effects {A} (o : res A * system W H) : option exn * system W H :=
  match o with
  | (Ok _, s) => (None, s)
  | (Raise e, s) => (Some e, s)
  end.

(** What no command changes, and what no command raises.

    [steady m]: running [m] leaves the registry and the configuration as
    they were, and an exception [m] raises is never the [TypeError] of a
    call with the wrong number of arguments. *)
Definition same_setup (s s' : system W H) : Prop :=
  commands (runner s') = commands (runner s)
  /\ commands_sorted (runner s') = commands_sorted (runner s)
  /\ config s' = config s.

Definition steady {A} (m : M (W := W) (H := H) A) : Prop :=
  forall s r s',
    m s = (r, s') ->
    same_setup s s' /\ (forall e, r = Raise e -> e <> arity_error).

(** [quiet m]: [m] assigns neither the session handle, nor the registry,
    nor the configuration. *)
Definition quiet {A} (m : M (W := W) (H := H) A) : Prop :=
  forall s r s', m s = (r, s') -> runner s' = runner s /\ config s' = config s.

(** [keeps_session_ok m]: [m] keeps the invariant of sessions. *)
Definition keeps_session_ok {A} (m : M (W := W) (H := H) A) : Prop :=
  forall s r s', session_ok s -> m s = (r, s') -> session_ok s'.

End Specifications.

Arguments same_setup {W H} s s'.
Arguments steady W H {A} m.
Arguments quiet W H {A} m.
Arguments keeps_session_ok W H {A} m.

(** A registry in which every name listed for [help] has an entry. *)
Definition well_formed {H} (r : CommandRunner H) : Prop :=
  Forall (fun cmd => is_Some (commands r !! cmd)) (commands_sorted r).

(** The command names of the shell with the method each one runs, in the
    order [help] shows them. *)
Definition catalogue : list (string * method) :=
  [("help", m_help); ("echo", m_echo); ("exit", m_exit); ("quit", m_exit);
   ("connect", m_connect); ("login", m_login); ("status", m_status);
   ("start", m_start); ("patron-info", m_patron_info)].

(** The characters that mean nothing to the tokenizer: neither white
    space, nor the comment sign, nor a quote, nor the backslash. *)
Definition ordinary_char (c : ascii) : bool :=
  negb (char_in c Shlex.whitespace) && negb (char_in c Shlex.commenters)
  && negb (char_in c Shlex.quotes) && negb (char_in c Shlex.escape).

(** A word: one ordinary character or more. *)
Definition is_word (w : string) : bool :=
  negb (str_is_empty w) && forallb ordinary_char (list_ascii_of_string w).

(** A text with no line break, and a text with no single quote. *)
Definition one_line (text : string) : bool :=
  forallb (fun c => negb (char_eqb c LF)) (list_ascii_of_string text).

Definition no_single_quote (text : string) : bool :=
  forallb (fun c => negb (char_eqb c SQUOTE)) (list_ascii_of_string text).

(** The options of the command line, as [getopt] names them. *)
Definition is_help_option (o : string) : bool :=
  String.eqb o "-h" || String.eqb o "--help".

Definition is_autostart_option (o : string) : bool :=
  String.eqb o "-a" || String.eqb o "--autostart".

Definition is_config_option (o : string) : bool :=
  String.eqb o "-c" || String.eqb o "--config".

Definition is_setting (oa : string * string) : bool :=
  is_autostart_option (fst oa) || is_config_option (fst oa).

(** The values given for the configuration file, in order. *)
Definition config_values (opts : list (string * string)) : list string :=
  omap (fun oa => if is_config_option (fst oa) then Some (snd oa) else None)
       opts.

(** The configuration object with the settings of [opts] applied: the
    file of the last [-c] or [--config], autostart when [-a] or
    [--autostart] is among them. *)
Definition with_options (opts : list (string * string)) (c : ConfigHandler)
    : ConfigHandler :=
  {| configfile := default (configfile c) (last (config_values opts));
     server := server c;
     port := port c;
     institution := institution c;
     username := username c;
     password := password c;
     autostart := autostart c || existsb (fun oa => is_autostart_option (fst oa)) opts;
     location_code := location_code c |}.

(** [s] with [c] as its configuration object. *)
Definition with_config {W H} (s : system W H) (c : ConfigHandler)
    : system W H :=
  {| runner := runner s; config := c; world := world s; trace := trace s |}.

(* ------------------------------------------------------------------ *)
(** ** Collaborators to run the dispatcher against

    A scripted protocol client: the world counts the calls made, a client
    object is its port, a response is its raw text. *)
Definition scripted (reachable accepts_login : bool) (online_status : pyval)
    : Collaborator nat Z string :=
  {| Client := fun _ p w => (Returns p, S w);
     set_default_institution := fun _ _ w => S w;
     client_connect := fun _ w =>
       (if reachable then Returns tt else Fails "Connection refused", S w);
     client_login := fun _ _ _ _ w => (Returns accepts_login, S w);
     client_sc_status := fun _ w => (Returns "98YYYNNN", S w);
     client_patron_info_request := fun _ barcode w =>
       (Returns ("64" ++ barcode), S w);
     fixed_field_value := fun _ name =>
       if String.eqb name "online_status" then Returns online_status
       else Fails "no such field";
     resp_repr := fun r => r |}.

Definition unreachable_server : Collaborator nat Z string :=
  scripted false false None.

Definition online_server : Collaborator nat Z string :=
  scripted true true (Some "Y").

(** A client that cannot even be built, and a server that accepts the
    connection and then drops every request. *)
Definition no_client_library : Collaborator nat Z string :=
  {| Client := fun _ _ w => (Fails "SSL context unavailable", S w);
     set_default_institution := fun _ _ w => S w;
     client_connect := fun _ w => (Returns tt, S w);
     client_login := fun _ _ _ _ w => (Returns true, S w);
     client_sc_status := fun _ w => (Returns "98YYYNNN", S w);
     client_patron_info_request := fun _ barcode w =>
       (Returns ("64" ++ barcode), S w);
     fixed_field_value := fun _ _ => Returns (Some "Y");
     resp_repr := fun r => r |}.

Definition dropping_server : Collaborator nat Z string :=
  {| Client := fun _ p w => (Returns p, S w);
     set_default_institution := fun _ _ w => S w;
     client_connect := fun _ w => (Returns tt, S w);
     client_login := fun _ _ _ _ w => (Fails "Connection reset", S w);
     client_sc_status := fun _ w => (Fails "Connection reset", S w);
     client_patron_info_request := fun _ _ w =>
       (Fails "Connection reset", S w);
     fixed_field_value := fun _ _ => Returns None;
     resp_repr := fun r => r |}.

(** A server that answers, and says it is not online. *)
Definition offline_server : Collaborator nat Z string :=
  scripted true true (Some "N").

(** The [[client]] section of a complete configuration file. *)
Definition sample_file : parsed_config :=
  {[ "client" := ({[ "server" := Ok "localhost"; "port" := Ok "6001";
                     "institution" := Ok "example"; "username" := Ok "sip";
                     "password" := Ok "secret";
                     "location_code" := Ok "main" ]}
                  : gmap string (res string)) ]}.

(** A file that both libraries accept, with the sections [sections]. *)
Definition accepted (sections : parsed_config) : config_file :=
  {| fileConfig := None; read := Ok sections |}.

(** The system as the start-up code leaves it when the file is accepted:
    [ConfigHandler()], [CommandRunner(config)], then [config.setup()]. *)
Definition boot (file : parsed_config) : system nat Z :=
  {| runner := CommandRunner_init Z;
     config := snd (setup (accepted file) ConfigHandler_init);
     world := 0%nat;
     trace := [] |}.

(** The dispatcher after a [connect] the server refused, and after one it
    accepted. *)
Definition after_failed_connect : system nat Z :=
  snd (connect (C := unreachable_server) [] (boot sample_file)).

Definition after_connect : system nat Z :=
  snd (connect (C := online_server) [] (boot sample_file)).

(** A file with the sections of the logging set-up and nothing else. *)
Definition logging_only_file : parsed_config :=
  {[ "loggers" := ({[ "keys" := Ok "root" ]} : gmap string (res string));
     "handlers" := ({[ "keys" := Ok "console" ]} : gmap string (res string));
     "formatters" := ({[ "keys" := Ok "plain" ]} : gmap string (res string));
     "logger_root" := ({[ "level" := Ok "WARNING";
                          "handlers" := Ok "console" ]}
                       : gmap string (res string));
     "handler_console" := ({[ "class" := Ok "StreamHandler";
                              "args" := Ok "(sys.stdout,)";
                              "formatter" := Ok "plain" ]}
                           : gmap string (res string));
     "formatter_plain" := ({[ "datefmt" := Ok "" ]}
                           : gmap string (res string)) ]}.

(** No file at the path: [fileConfig] finds no [[formatters]] section,
    [read] reads nothing. *)
Definition missing_file : config_file :=
  {| fileConfig := Some (KeyError "formatters"); read := Ok ∅ |}.

(** A [[client]] section whose password has a [%]: [get] raises on that
    option. *)
Definition percent_file : parsed_config :=
  {[ "client" := ({[ "server" := Ok "localhost"; "port" := Ok "6001";
                     "password" :=
                       Raise (LibraryError "InterpolationSyntaxError"
                                "'%' must be followed by '%' or '(', found: '%off'") ]}
                  : gmap string (res string)) ]}.

(** The files of a machine: the sample file under the default name and
    under another name, a file with the logging sections only, and no
    file anywhere else. *)
Definition sample_files (path : string) : config_file :=
  if String.eqb path "pysip2-client.ini" || String.eqb path "branch.ini"
  then accepted sample_file
  else if String.eqb path "logging.ini" then accepted logging_only_file
  else missing_file.

(** A session on a reachable server: a question, a mistyped command, a
    connection. *)
Definition sample_session : list string := ["help"; "conect"; "connect"].

(** A dispatcher on which one name was registered twice. *)
Definition twice_registered : system nat Z :=
  {| runner := add_command "ping" m_status "second"
                 (add_command "ping" m_echo "first"
                    {| client := None; commands := ∅;
                       commands_sorted := [] |});
     config := ConfigHandler_init;
     world := 0%nat;
     trace := [] |}.

(** A configuration file whose port is not a number. *)
Definition malformed_file : parsed_config :=
  {[ "client" := ({[ "server" := Ok "localhost"; "port" := Ok "sixty" ]}
                  : gmap string (res string)) ]}.

(* ------------------------------------------------------------------ *)
(** ** Tokens of ordinary characters

    The printable ASCII characters other than the single quote and the
    backslash: [repr] writes such a token as it is, between single
    quotes. *)
Definition plain_char (c : ascii) : bool :=
  (32 <=? ord c)%nat && (ord c <? 127)%nat
  && negb (char_eqb c SQUOTE) && negb (char_eqb c BACKSLASH).

Definition plain (token : string) : bool :=
  forallb plain_char (list_ascii_of_string token).

(* ------------------------------------------------------------------ *)
(** ** Reading a printed list back

    The reader of the text [str] gives for a list of strings: an opening
    bracket, string literals in single or double quotes separated by a
    comma and a space, a closing bracket.  In a literal a backslash starts
    an escape: [\\], an escaped quote, [\t], [\n], [\r] or [\xhh]. *)
Module PyLiteral.

Inductive mode : Type :=
  | Start                      (* before the opening bracket *)
  | First                      (* after it: a literal or the closing bracket *)
  | Elem                       (* after a separator: a literal *)
  | Str (q : ascii)            (* inside a literal quoted with [q] *)
  | Esc (q : ascii)            (* after a backslash *)
  | Hex1 (q : ascii)           (* after backslash x *)
  | Hex2 (q : ascii) (d : nat) (* after its first hexadecimal digit *)
  | After                      (* after a literal *)
  | Comma                      (* after the comma of a separator *)
  | Done.                      (* after the closing bracket *)

Definition hex_value (c : ascii) : option nat :=
  let n := ord c in
  if (48 <=? n)%nat && (n <=? 57)%nat then Some (n - 48)%nat
  else if (97 <=? n)%nat && (n <=? 102)%nat then Some (n - 87)%nat
  else None.

Definition is_quote (c : ascii) : bool :=
  char_eqb c SQUOTE || char_eqb c DQUOTE.

(** [done] holds the strings read so far, [cur] the characters of the
    literal being read. *)
Fixpoint read (m : mode) (done : list string) (cur : string) (text : string)
    : option (list string) :=
  match text with
  | EmptyString =>
      match m with
      | Done => Some done
      | _ => None
      end
  | String c text' =>
      match m with
      | Start =>
          if char_eqb c "["%char then read First done cur text' else None
      | First =>
          if char_eqb c "]"%char then read Done done cur text'
          else if is_quote c then read (Str c) done EmptyString text'
          else None
      | Elem =>
          if is_quote c then read (Str c) done EmptyString text' else None
      | Str q =>
          if char_eqb c q then read After (done ++ [cur]) EmptyString text'
          else if char_eqb c BACKSLASH then read (Esc q) done cur text'
          else read (Str q) done (cur ++ str1 c) text'
      | Esc q =>
          if char_eqb c BACKSLASH || is_quote c then
            read (Str q) done (cur ++ str1 c) text'
          else if char_eqb c "t"%char then
            read (Str q) done (cur ++ str1 TAB) text'
          else if char_eqb c "n"%char then
            read (Str q) done (cur ++ str1 LF) text'
          else if char_eqb c "r"%char then
            read (Str q) done (cur ++ str1 CR) text'
          else if char_eqb c "x"%char then read (Hex1 q) done cur text'
          else None
      | Hex1 q =>
          match hex_value c with
          | Some d => read (Hex2 q d) done cur text'
          | None => None
          end
      | Hex2 q d =>
          match hex_value c with
          | Some d' =>
              read (Str q) done (cur ++ str1 (chr (16 * d + d'))) text'
          | None => None
          end
      | After =>
          if char_eqb c "]"%char then read Done done cur text'
          else if char_eqb c ","%char then read Comma done cur text'
          else None
      | Comma =>
          if char_eqb c " "%char then read Elem done cur text' else None
      | Done => None
      end
  end.

Definition read_list (text : string) : option (list string) :=
  read Start [] EmptyString text.

End PyLiteral.

(* ------------------------------------------------------------------ *)
(** * Properties *)

(** ** The runtime models on sample inputs *)

Example shlex_abc : Shlex.split "echo a b c" = Ok ["echo"; "a"; "b"; "c"].
Proof. reflexivity. Qed.

Example shlex_blank : Shlex.split "   " = Ok [].
Proof. reflexivity. Qed.

Example shlex_quoting :
  Shlex.split "patron-info '123 456' # lookup" = Ok ["patron-info"; "123 456"].
Proof. reflexivity. Qed.

Example repr_abc : PyRepr.str_list ["a"; "b"; "c"] = "['a', 'b', 'c']".
Proof. reflexivity. Qed.

Example int_port : PyInt.int (Some "6001") = Ok 6001.
Proof. reflexivity. Qed.

(** ** What [str] prints for a list reads back as that list *)

Lemma string_app_nil_l (b : string) : "" ++ b = b.
Proof. reflexivity. Qed.

Lemma string_app_cons (x : ascii) (a b : string) :
  String x a ++ b = String x (a ++ b).
Proof. reflexivity. Qed.

Lemma string_app_assoc (a b c : string) : (a ++ b) ++ c = a ++ (b ++ c).
Proof.
  induction a as [|x a IH]; [done|].
  by rewrite !string_app_cons, IH.
Qed.

Lemma string_app_nil_r (a : string) : a ++ "" = a.
Proof.
  induction a as [|x a IH]; [done|].
  by rewrite string_app_cons, IH.
Qed.

Lemma is_quote_cases q :
  PyLiteral.is_quote q = true -> q = SQUOTE \/ q = DQUOTE.
Proof.
  destruct q as [b0 b1 b2 b3 b4 b5 b6 b7].
  destruct b0, b1, b2, b3, b4, b5, b6, b7; vm_compute; intros Hq;
    first [discriminate Hq | by left | by right].
Qed.

Lemma quote_for_is_quote s : PyLiteral.is_quote (PyRepr.quote_for s) = true.
Proof. unfold PyRepr.quote_for. by case_match. Qed.

(** One character: its escape reads back as the character. *)
Lemma read_repr_char q c done cur rest :
  PyLiteral.is_quote q = true ->
  PyLiteral.read (PyLiteral.Str q) done cur (PyRepr.repr_char q c ++ rest)
  = PyLiteral.read (PyLiteral.Str q) done (cur ++ str1 c) rest.
Proof.
  intros [-> | ->]%is_quote_cases;
    destruct c as [b0 b1 b2 b3 b4 b5 b6 b7];
    destruct b0, b1, b2, b3, b4, b5, b6, b7; reflexivity.
Qed.

Lemma read_repr_chars q s done cur rest :
  PyLiteral.is_quote q = true ->
  PyLiteral.read (PyLiteral.Str q) done cur (PyRepr.repr_chars q s ++ rest)
  = PyLiteral.read (PyLiteral.Str q) done (cur ++ s) rest.
Proof.
  intros Hq. revert cur.
  induction s as [|c s IH]; intros cur; cbn [PyRepr.repr_chars].
  - by rewrite string_app_nil_r.
  - rewrite string_app_assoc, (read_repr_char _ _ _ _ _ Hq), IH.
    by rewrite string_app_assoc.
Qed.

(** The closing quote ends the literal. *)
Lemma read_closing_quote q done cur rest :
  PyLiteral.read (PyLiteral.Str q) done cur (str1 q ++ rest)
  = PyLiteral.read PyLiteral.After (done ++ [cur]) "" rest.
Proof.
  unfold str1. rewrite string_app_cons, string_app_nil_l.
  cbn [PyLiteral.read]. unfold char_eqb. by rewrite Ascii.eqb_refl.
Qed.

(** An opening quote starts a literal, after the bracket or a separator. *)
Lemma read_opening_quote q done cur rest :
  PyLiteral.is_quote q = true ->
  PyLiteral.read PyLiteral.Elem done cur (str1 q ++ rest)
  = PyLiteral.read (PyLiteral.Str q) done "" rest
  /\ PyLiteral.read PyLiteral.First done cur (str1 q ++ rest)
     = PyLiteral.read (PyLiteral.Str q) done "" rest.
Proof.
  intros [-> | ->]%is_quote_cases; split; reflexivity.
Qed.

(** One literal, where a literal may start. *)
Lemma read_repr_str s done cur rest :
  PyLiteral.read PyLiteral.Elem done cur (PyRepr.repr_str s ++ rest)
  = PyLiteral.read PyLiteral.After (done ++ [s]) "" rest
  /\ PyLiteral.read PyLiteral.First done cur (PyRepr.repr_str s ++ rest)
     = PyLiteral.read PyLiteral.After (done ++ [s]) "" rest.
Proof.
  unfold PyRepr.repr_str.
  pose proof (quote_for_is_quote s) as Hq.
  set (q := PyRepr.quote_for s) in *.
  rewrite !string_app_assoc.
  destruct (read_opening_quote q done cur
              (PyRepr.repr_chars q s ++ str1 q ++ rest) Hq) as [-> ->].
  by rewrite (read_repr_chars _ _ _ _ _ Hq), read_closing_quote.
Qed.

Lemma join_cons2 sep (x y : string) (l : list string) :
  PyRepr.join sep (x :: y :: l) = x ++ sep ++ PyRepr.join sep (y :: l).
Proof. reflexivity. Qed.

(** A separator, where a literal has ended. *)
Lemma read_separator done cur rest :
  PyLiteral.read PyLiteral.After done cur (", " ++ rest)
  = PyLiteral.read PyLiteral.Elem done cur rest.
Proof. reflexivity. Qed.

Lemma read_join x l done cur :
  PyLiteral.read PyLiteral.Elem done cur
    (PyRepr.join ", " (map PyRepr.repr_str (x :: l)) ++ "]")
  = Some (done ++ x :: l)%list.
Proof.
  revert x done cur. induction l as [|y l IH]; intros x done cur.
  - cbn [map PyRepr.join].
    by rewrite (proj1 (read_repr_str x done cur "]")).
  - cbn [map]. rewrite join_cons2.
    rewrite string_app_assoc, (proj1 (read_repr_str _ _ _ _)).
    rewrite string_app_assoc, read_separator.
    change (PyRepr.repr_str y :: map PyRepr.repr_str l)
      with (map PyRepr.repr_str (y :: l)).
    rewrite IH. by rewrite <- app_assoc.
Qed.

(** The text [str] gives for a list of strings reads back as that list,
    element for element and character for character. *)
Lemma read_list_str_list (l : list string) :
  PyLiteral.read_list (PyRepr.str_list l) = Some l.
Proof.
  unfold PyLiteral.read_list, PyRepr.str_list.
  rewrite string_app_cons, string_app_nil_l.
  change (PyLiteral.read PyLiteral.Start [] ""
            (String "[" (PyRepr.join ", " (map PyRepr.repr_str l) ++ "]")))
    with (PyLiteral.read PyLiteral.First [] ""
            (PyRepr.join ", " (map PyRepr.repr_str l) ++ "]")).
  destruct l as [|x l]; [reflexivity|].
  pose proof (read_join x l [] "") as Hjoin.
  destruct l as [|y l].
  - cbn [map PyRepr.join] in *.
    rewrite (proj2 (read_repr_str x [] "" "]")).
    by rewrite (proj1 (read_repr_str x [] "" "]")) in Hjoin.
  - cbn [map] in *. rewrite join_cons2 in *.
    rewrite string_app_assoc in *.
    rewrite (proj2 (read_repr_str x [] "" _)).
    by rewrite (proj1 (read_repr_str x [] "" _)) in Hjoin.
Qed.

(** ** The dispatcher *)

Lemma emitted_nil {W H} (s : system W H) : emitted s [] = s.
Proof. destruct s; unfold emitted; cbn. by rewrite app_nil_r. Qed.

Lemma emitted_emitted {W H} (s : system W H) es1 es2 :
  emitted (emitted s es1) es2 = emitted s (es1 ++ es2).
Proof. unfold emitted; cbn. by rewrite app_assoc. Qed.

Section Properties.

Context {W H R : Type} {C : Collaborator W H R}.

Implicit Types (s : system W H) (args : list string) (e : exn).

Local Abbreviation steady := (steady W H).

Lemma print_emitted line s : print line s = (Ok tt, emitted s [Stdout line]).
Proof. reflexivity. Qed.

Lemma print_stderr_emitted line s :
  print_stderr line s = (Ok tt, emitted s [Stderr line]).
Proof. reflexivity. Qed.

Lemma self_client_None name s :
  client (runner s) = None ->
  self_client name s = (Raise (NoneType_has_no name), s).
Proof. unfold self_client. by intros ->. Qed.

(** *** Blank and comment-only lines *)

(** C1 (the code at the failing inputs).  An empty line, a line of white
    space and a line holding only a comment all tokenize to the empty list;
    [run] then evaluates [tokens[0]] and raises [IndexError], with nothing
    printed, no handler invoked and the state as it was. *)
Theorem run_blank_line_raises_IndexError s :
  Shlex.split "" = Ok []
  /\ Shlex.split "   " = Ok []
  /\ Shlex.split "# just a comment" = Ok []
  /\ run "" s = (Raise (IndexError "list index out of range"), s)
  /\ run "   " s = (Raise (IndexError "list index out of range"), s)
  /\ run "# just a comment" s
     = (Raise (IndexError "list index out of range"), s).
Proof. repeat split. Qed.

(** *** Unknown commands *)

(** C5.  When the first token of the line is not a key of the registry,
    [run] prints "Command not found: <token>" to the error stream and
    returns (no value, no exception); no handler runs, so the session
    handle, the registry, the configuration and the client's world are
    what they were and nothing else is printed or called. *)
Theorem run_command_not_found line command args s :
  Shlex.split line = Ok (command :: args) ->
  commands (runner s) !! command = None ->
  run line s
  = (Ok PyNone, emitted s [Stderr ("Command not found: " ++ command)]).
Proof.
  intros Hsplit Hlookup.
  unfold run, bind, lift. rewrite Hsplit. cbn. by rewrite Hlookup.
Qed.

(** *** [connect] *)

(** Unfolding one step of a sequence. *)
Lemma bind_Ok {A B} (m : M (W := W) (H := H) A) (k : A -> M B) s a s' :
  m s = (Ok a, s') -> bind m k s = k a s'.
Proof. unfold bind. by intros ->. Qed.

Lemma bind_Raise {A B} (m : M (W := W) (H := H) A) (k : A -> M B) s e s' :
  m s = (Raise e, s') -> bind m k s = (Raise e, s').
Proof. unfold bind. by intros ->. Qed.

(** C3 (amended).  Once the configured port has been converted to an
    integer and the client object has been built, a failure of the client's
    [connect()] makes the handler print "Unable to connect to server
    <server> port <port>", set the session handle to [None] and return
    [False]: nothing is raised. *)
Theorem connect_failure_contained args s p c w1 msg w2 :
  PyInt.int (port (config s)) = Ok p ->
  Client (server (config s)) p (world s) = (Returns c, w1) ->
  client_connect c (set_default_institution c (institution (config s)) w1)
  = (Fails msg, w2) ->
  connect args s
  = (Ok PyFalse,
     {| runner := {| client := None;
                     commands := commands (runner s);
                     commands_sorted := commands_sorted (runner s) |};
        config := config s;
        world := w2;
        trace := trace s
                 ++ [Called (call_Client (server (config s)) p);
                     Called (call_set_default_institution
                               (institution (config s)));
                     Called call_connect;
                     Stdout ("Unable to connect to server "
                             ++ py_str (server (config s)) ++ " port "
                             ++ py_str (port (config s)))] |}).
Proof.
  intros Hport Hnew Hconn.
  unfold connect, bind, get_config, lift, client_call, try_except,
    self_client, set_client, print, log, ret; cbn.
  rewrite Hport; cbn. rewrite Hnew; cbn. rewrite Hconn; cbn.
  by rewrite <- !app_assoc.
Qed.

(** A [connect] that returns [False] has left the session handle empty. *)
Lemma connect_False_client_None args s s1 :
  connect args s = (Ok PyFalse, s1) -> client (runner s1) = None.
Proof.
  unfold connect, bind, get_config, lift, client_call, try_except,
    self_client, set_client, print, log, ret, raise; cbn.
  destruct (PyInt.int _); cbn; [|discriminate].
  destruct (Client _ _ _) as [[c|msg] w1]; cbn; [|discriminate].
  destruct (client_connect _ _) as [[[]|msg] w2]; cbn.
  - discriminate.
  - by intros [= <-].
Qed.

(** *** [login] *)

(** C2 (amended).  With the session handle empty, [login] stops at
    [self.client.login] with the [AttributeError] of [None]: nothing is
    printed, the client is not called and the state is what it was.  This
    is the state a [connect] that returned [False] leaves. *)
Theorem login_without_client_faults :
  (forall args s,
     client (runner s) = None ->
     login args s = (Raise (NoneType_has_no "login"), s))
  /\ (forall args args' s s1,
        connect args s = (Ok PyFalse, s1) ->
        client (runner s1) = None
        /\ login args' s1 = (Raise (NoneType_has_no "login"), s1)).
Proof.
  assert (Hlogin : forall args s,
             client (runner s) = None ->
             login args s = (Raise (NoneType_has_no "login"), s)).
  { intros args s Hnone.
    unfold login, bind, get_config, self_client; cbn. by rewrite Hnone. }
  split; [exact Hlogin|].
  intros args args' s s1 Hconn.
  pose proof (connect_False_client_None _ _ _ Hconn) as Hnone.
  split; [exact Hnone|]. by apply Hlogin.
Qed.

(** *** [start] *)

(** C4.  [start] leaves behind exactly what "[connect] and [login] and
    [status]" leaves behind (same exception if any, same session handle,
    same world, same lines printed and calls made).  When [connect] raises
    or returns a false value, [start] ends in the state [connect] ended in:
    [login] and [status] have not run, so no call of theirs was made.  When
    [login] returns a false value, [start] ends in the state [login] ended
    in: [status] has not run.  When both return a true value, what remains
    is [status].  ([start] has no [return]: the value it hands back is
    [None] in every case.) *)
Theorem start_short_circuits args :
  (forall s, effects (start args s) = effects (start_spec args s))
  /\ (forall s e s1,
        connect args s = (Raise e, s1) -> start args s = (Raise e, s1))
  /\ (forall s r s1,
        connect args s = (Ok r, s1) -> truthy r = false ->
        start args s = (Ok PyNone, s1)
        /\ calls (trace (snd (start args s))) = calls (trace s1))
  /\ (forall s r1 s1 r2 s2,
        connect args s = (Ok r1, s1) -> truthy r1 = true ->
        login args s1 = (Ok r2, s2) -> truthy r2 = false ->
        start args s = (Ok PyNone, s2)
        /\ calls (trace (snd (start args s))) = calls (trace s2))
  /\ (forall s r1 s1 r2 s2,
        connect args s = (Ok r1, s1) -> truthy r1 = true ->
        login args s1 = (Ok r2, s2) -> truthy r2 = true ->
        effects (start args s) = effects (status args s2))
  /\ (forall s r s', start args s = (Ok r, s') -> r = PyNone).
Proof.
  repeat apply conj.
  - intros s. unfold start, start_spec, and_then, bind, ret.
    destruct (connect args s) as [[r1|e1] s1]; [|done].
    destruct (truthy r1); [|done].
    destruct (login args s1) as [[r2|e2] s2]; [|done].
    destruct (truthy r2); [|done].
    by destruct (status args s2) as [[r3|e3] s3].
  - intros s e s1 Hc. unfold start. by rewrite (bind_Raise _ _ _ _ _ Hc).
  - intros s r s1 Hc Hr. unfold start.
    rewrite (bind_Ok _ _ _ _ _ Hc), Hr. done.
  - intros s r1 s1 r2 s2 Hc Hr1 Hl Hr2. unfold start.
    rewrite (bind_Ok _ _ _ _ _ Hc), Hr1, (bind_Ok _ _ _ _ _ Hl), Hr2. done.
  - intros s r1 s1 r2 s2 Hc Hr1 Hl Hr2. unfold start.
    rewrite (bind_Ok _ _ _ _ _ Hc), Hr1, (bind_Ok _ _ _ _ _ Hl), Hr2.
    unfold bind, ret. by destruct (status args s2) as [[r3|e3] s3].
  - intros s r s'. unfold start, bind, ret.
    destruct (connect args s) as [[r1|e1] s1]; [|done].
    destruct (truthy r1); [|congruence].
    destruct (login args s1) as [[r2|e2] s2]; [|done].
    destruct (truthy r2); [|congruence].
    destruct (status args s2) as [[r3|e3] s3]; [congruence|done].
Qed.

(** *** [patron_info] *)

(** C7.  Without arguments [patron_info] prints "Patron barcode
    required" and returns [False]; the client's world is untouched and no
    call is recorded.  With a barcode, a session handle and a response from
    the client, it makes the one [patron_info_request] call, prints
    [repr] of the response and returns [True], whatever the response is. *)
Theorem patron_info_requires_barcode :
  (forall s,
     patron_info [] s
     = (Ok PyFalse, emitted s [Stdout "Patron barcode required"])
     /\ world (snd (patron_info [] s)) = world s
     /\ calls (trace (snd (patron_info [] s))) = calls (trace s))
  /\ (forall barcode rest s c resp w',
        client (runner s) = Some c ->
        client_patron_info_request c barcode (world s) = (Returns resp, w') ->
        patron_info (barcode :: rest) s
        = (Ok PyTrue,
           {| runner := runner s; config := config s; world := w';
              trace := trace s
                       ++ [Called (call_patron_info_request barcode);
                           Stdout (resp_repr resp)] |})).
Proof.
  split.
  - intros s. repeat split.
    unfold calls; cbn. rewrite List.filter_app; cbn. by rewrite app_nil_r.
  - intros barcode rest s c resp w' Hc Hreq.
    unfold patron_info, bind, self_client, getitem, client_call, print, log,
      ret; cbn.
    rewrite Hc; cbn. rewrite Hreq; cbn. by rewrite <- app_assoc.
Qed.

(** *** [help] *)

(** The loop of [help] over a list whose names are all registered. *)
Lemma for_each_help_lines (cmds : gmap string entry) (l : list string) s :
  Forall (fun cmd => is_Some (cmds !! cmd)) l ->
  for_each l (fun cmd =>
                match cmds !! cmd with
                | Some e => print ("  " ++ cmd ++ " - " ++ desc e)
                | None => raise (KeyError cmd)
                end) s
  = (Ok tt,
     emitted s
       (map (fun cmd =>
               Stdout ("  " ++ cmd ++ " - "
                       ++ from_option desc "" (cmds !! cmd))) l)).
Proof.
  intros Hall. revert s.
  induction Hall as [|cmd l [e He] _ IH]; intros s; cbn [for_each map].
  - by rewrite emitted_nil.
  - unfold bind at 1. rewrite He. rewrite print_emitted, IH.
    by rewrite emitted_emitted.
Qed.

(** C6.  On the registry [__init__] builds, [help] prints the heading and
    then one line per command, name and description, in the order the
    commands were registered: help, echo, exit, quit, connect, login,
    status, start, patron-info; it returns [True] and changes nothing
    else. *)
Theorem help_lists_commands_in_order args s :
  commands (runner s) = commands (CommandRunner_init H) ->
  commands_sorted (runner s) = commands_sorted (CommandRunner_init H) ->
  commands_sorted (runner s)
  = ["help"; "echo"; "exit"; "quit"; "connect"; "login"; "status"; "start";
     "patron-info"]
  /\ help args s
     = (Ok PyTrue,
        emitted s
          [Stdout "Commands:";
           Stdout "  help - Display help message";
           Stdout "  echo - Echo command with arguments";
           Stdout "  exit - Exit shell";
           Stdout "  quit - Exit shell";
           Stdout "  connect - Open a network connection to the SIP server.";
           Stdout "  login - Send a 93 Login request.";
           Stdout "  status - Send a 99 SC Status request message.";
           Stdout ("  start - Shortcut for a combination of "
                   ++ dquoted "connect" ++ ", " ++ dquoted "login"
                   ++ ", and " ++ dquoted "status" ++ " commands.");
           Stdout "  patron-info - Send a 63 Patron Information Request message."]).
Proof.
  intros Hcommands Hsorted. split; [by rewrite Hsorted|].
  unfold help.
  rewrite (bind_Ok _ _ _ _ _ (print_emitted _ _)).
  unfold bind at 1, get_runner. cbn [runner emitted].
  rewrite Hcommands, Hsorted.
  erewrite bind_Ok; last first.
  { apply for_each_help_lines. apply (bool_decide_unpack _). by vm_compute. }
  unfold ret. rewrite emitted_emitted. reflexivity.
Qed.

Lemma same_setup_refl s : same_setup s s.
Proof. by repeat split. Qed.

Lemma same_setup_trans s1 s2 s3 :
  same_setup s1 s2 -> same_setup s2 s3 -> same_setup s1 s3.
Proof.
  intros (? & ? & ?) (? & ? & ?). repeat split; by etrans.
Qed.

Lemma steady_ret {A} (a : A) : steady (ret a).
Proof. intros s r s' [= <- <-]. split; [apply same_setup_refl|done]. Qed.

Lemma steady_raise {A} e : e <> arity_error -> steady (raise (A := A) e).
Proof.
  intros He s r s' [= <- <-]. split; [apply same_setup_refl|].
  by intros ? [= <-].
Qed.

Lemma steady_bind {A B} (m : M A) (k : A -> M B) :
  steady m -> (forall a, steady (k a)) -> steady (bind m k).
Proof.
  intros Hm Hk s r s'. unfold bind.
  destruct (m s) as [[a|e] s1] eqn:Hms; intros Hrun.
  - destruct (Hm _ _ _ Hms) as [H1 _], (Hk a _ _ _ Hrun) as [H2 Hr].
    split; [by eapply same_setup_trans|done].
  - injection Hrun as <- <-. destruct (Hm _ _ _ Hms) as [H1 Hr].
    split; [done|]. intros e' [= <-]. by apply Hr.
Qed.

Lemma steady_try_except {A} (body handler : M A) :
  steady body -> steady handler -> steady (try_except body handler).
Proof.
  intros Hb Hh s r s'. unfold try_except.
  destruct (body s) as [[a|e] s1] eqn:Hbs; intros Hrun.
  - injection Hrun as <- <-. exact (Hb _ _ _ Hbs).
  - destruct (Hb _ _ _ Hbs) as [H1 _], (Hh _ _ _ Hrun) as [H2 Hr].
    split; [by eapply same_setup_trans|done].
Qed.

Lemma steady_log ev : steady (log ev).
Proof. intros s r s' [= <- <-]. by repeat split. Qed.

Lemma steady_print line : steady (print line).
Proof. apply steady_log. Qed.

Lemma steady_print_stderr line : steady (print_stderr line).
Proof. apply steady_log. Qed.

Lemma steady_get_runner : steady get_runner.
Proof. intros s r s' [= <- <-]. by repeat split. Qed.

Lemma steady_get_config : steady get_config.
Proof. intros s r s' [= <- <-]. by repeat split. Qed.

Lemma steady_set_client c : steady (set_client c).
Proof. intros s r s' [= <- <-]. by repeat split. Qed.

Lemma steady_client_call {A} cl (f : W -> answer A * W) :
  steady (client_call cl f).
Proof.
  intros s r s'. unfold client_call.
  destruct (f (world s)) as [[a|msg] w]; intros [= <- <-];
    (split; [by repeat split|]); by intros ? [= <-].
Qed.

Lemma steady_self_client name : steady (self_client name).
Proof.
  intros s r s'. unfold self_client.
  destruct (client (runner s)); intros [= <- <-];
    (split; [by repeat split|]); by intros ? [= <-].
Qed.

Lemma steady_getattr {A} cls name (a : attr A) : steady (getattr cls name a).
Proof. destruct a; [by apply steady_raise|apply steady_ret]. Qed.

Lemma steady_getitem {A} what (l : list A) i : steady (getitem what l i).
Proof.
  unfold getitem. destruct (l !! i); [apply steady_ret|by apply steady_raise].
Qed.

Lemma steady_for_each {A} (l : list A) (body : A -> M unit) :
  (forall x, steady (body x)) -> steady (for_each l body).
Proof.
  intros Hbody. induction l as [|x l IH]; cbn [for_each].
  - apply steady_ret.
  - apply steady_bind; [apply Hbody|]. by intros _.
Qed.

Lemma steady_int v : steady (lift (PyInt.int v)).
Proof.
  destruct v as [str|]; cbn; [|by apply steady_raise].
  unfold PyInt.of_str.
  destruct (PyInt.signed _) as [sign l].
  destruct (PyInt.digits l) as [[n rest]|]; [|by apply steady_raise].
  destruct (PyInt.skip_space rest); [apply steady_ret|by apply steady_raise].
Qed.

Lemma steady_emit quoted token rest :
  steady (lift rest) -> steady (lift (Shlex.emit quoted token rest)).
Proof.
  intros Hrest. unfold Shlex.emit.
  destruct (negb quoted && str_is_empty token); [apply steady_ret|].
  destruct rest; [apply steady_ret|exact Hrest].
Qed.

Lemma steady_read_tokens skip st est quoted token l :
  steady (lift (Shlex.read_tokens skip st est quoted token l)).
Proof.
  revert skip st est quoted token.
  induction l as [|c l IH]; intros skip st est quoted token;
    cbn [Shlex.read_tokens].
  - destruct st;
      first [by apply steady_emit, steady_ret | by apply steady_raise].
  - destruct skip; [apply IH|].
    destruct st; repeat case_match; first [apply IH | apply steady_emit, IH].
Qed.

Lemma steady_split line : steady (lift (Shlex.split line)).
Proof. apply steady_read_tokens. Qed.

Ltac steady_step :=
  first
    [ apply steady_ret
    | apply steady_print
    | apply steady_print_stderr
    | apply steady_get_runner
    | apply steady_get_config
    | apply steady_set_client
    | apply steady_client_call
    | apply steady_self_client
    | apply steady_getattr
    | apply steady_getitem
    | apply steady_int
    | apply steady_split
    | apply steady_raise; discriminate
    | apply steady_try_except
    | apply steady_for_each; intros
    | apply steady_bind; [|intros]
    | case_match ].

Ltac steady_auto := repeat steady_step.

Lemma steady_help args : steady (help args).
Proof. unfold help. steady_auto. Qed.

Lemma steady_exit args : steady (exit args).
Proof. unfold exit. steady_auto. Qed.

Lemma steady_echo args : steady (echo args).
Proof. unfold echo. steady_auto. Qed.

Lemma steady_connect args : steady (connect args).
Proof. unfold connect. steady_auto. Qed.

Lemma steady_login args : steady (login args).
Proof. unfold login. steady_auto. Qed.

Lemma steady_status args : steady (status args).
Proof. unfold status. steady_auto. Qed.

Lemma steady_start args : steady (start args).
Proof.
  unfold start.
  apply steady_bind; [apply steady_connect|]. intros r1.
  destruct (truthy r1); [|apply steady_ret].
  apply steady_bind; [apply steady_login|]. intros r2.
  destruct (truthy r2); [|apply steady_ret].
  apply steady_bind; [apply steady_status|]. intros _. apply steady_ret.
Qed.

Lemma steady_patron_info args : steady (patron_info args).
Proof. unfold patron_info. steady_auto. Qed.

Lemma steady_body m args : steady (body m args).
Proof.
  destruct m; cbn [body];
    auto using steady_help, steady_echo, steady_exit, steady_connect,
      steady_login, steady_status, steady_start, steady_patron_info.
Qed.

(** Binding the arguments never fails: every handler takes [*args]. *)
Lemma call_method_body m args : call_method (C := C) m args = body m args.
Proof. unfold call_method. by destruct m. Qed.

Lemma steady_run line : steady (run line).
Proof.
  unfold run.
  apply steady_bind; [apply steady_split|]. intros tokens.
  apply steady_bind; [apply steady_getitem|]. intros command.
  apply steady_bind; [apply steady_get_runner|]. intros self.
  destruct (commands self !! command) as [e|].
  - rewrite call_method_body. apply steady_body.
  - steady_auto.
Qed.

(** A registered command runs the body of its handler on the remaining
    tokens. *)
Lemma run_registered line command args s (ent : entry) :
  Shlex.split line = Ok (command :: args) ->
  commands (runner s) !! command = Some ent ->
  run line s = body (fn ent) args s.
Proof.
  intros Hsplit Hlookup.
  unfold run, bind, lift. rewrite Hsplit. cbn. rewrite Hlookup.
  by rewrite call_method_body.
Qed.

(** *** The read loop *)

(** No command changes the registry or the configuration, so every line
    of a session is dispatched on the registry [__init__] built. *)
Lemma steady_interact lines : steady (interact lines).
Proof.
  induction lines as [|line lines IH]; cbn [interact].
  - apply steady_ret.
  - apply steady_bind; [apply steady_run|]. by intros _.
Qed.

(** A line that names no command leaves the loop running: the rest of the
    session goes on from the same state, one line on the error stream
    later. *)
Lemma interact_command_not_found line command args lines s :
  Shlex.split line = Ok (command :: args) ->
  commands (runner s) !! command = None ->
  interact (line :: lines) s
  = interact lines
      (emitted s [Stderr ("Command not found: " ++ command)]).
Proof.
  intros Hsplit Hlookup. cbn [interact].
  unfold bind at 1, run, bind, lift. rewrite Hsplit. cbn. by rewrite Hlookup.
Qed.

(** An empty line ends the loop: the [IndexError] of [run] leaves it, and
    the lines after it are never read. *)
Lemma interact_blank_line lines s :
  interact ("" :: lines) s
  = (Raise (IndexError "list index out of range"), s).
Proof. reflexivity. Qed.

(** [exit] and [quit] end the loop with [SystemExit(0)], after the
    farewell. *)
Lemma interact_quit lines s (ent : entry) :
  commands (runner s) !! "quit" = Some ent ->
  fn ent = m_exit ->
  interact ("quit" :: lines) s
  = (Raise (SystemExit 0), emitted s [Stdout "Goodbye"]).
Proof.
  intros Hlookup Hfn. cbn [interact]. unfold bind at 1.
  rewrite (run_registered "quit" "quit" [] s ent eq_refl Hlookup), Hfn.
  reflexivity.
Qed.

(** *** Dispatch and arity *)


(** *** [echo] *)

Lemma repr_char_plain c :
  plain_char c = true -> PyRepr.repr_char SQUOTE c = str1 c.
Proof.
  destruct c as [b0 b1 b2 b3 b4 b5 b6 b7].
  destruct b0, b1, b2, b3, b4, b5, b6, b7; vm_compute; congruence.
Qed.

Lemma plain_char_not_squote c :
  plain_char c = true -> char_eqb SQUOTE c = false.
Proof.
  destruct c as [b0 b1 b2 b3 b4 b5 b6 b7].
  destruct b0, b1, b2, b3, b4, b5, b6, b7; vm_compute; congruence.
Qed.

Lemma repr_str_plain token :
  plain token = true ->
  PyRepr.repr_str token = str1 SQUOTE ++ token ++ str1 SQUOTE.
Proof.
  unfold plain, PyRepr.repr_str, PyRepr.quote_for. intros Hplain.
  assert (Hq : existsb (char_eqb SQUOTE) (list_ascii_of_string token) = false).
  { induction token as [|c token IH]; [done|]. cbn in Hplain |- *.
    apply andb_prop in Hplain as [Hc Htoken].
    by rewrite (plain_char_not_squote _ Hc), (IH Htoken). }
  rewrite Hq. cbn [andb].
  f_equal. f_equal.
  induction token as [|c token IH]; [done|]. cbn in Hplain, Hq |- *.
  apply andb_prop in Hplain as [Hc Htoken].
  apply orb_false_elim in Hq as [_ Hq].
  rewrite (repr_char_plain _ Hc), (IH Htoken Hq). done.
Qed.

(** C9.  [echo] prints one line, "echo args=" followed by the [str] of the
    list of the arguments it was given, nothing more, and returns without
    raising (the function has no [return]: its value is [None]); it touches
    neither the session nor the client.  The text printed reads back as
    the list that was given, element for element and character for
    character, and a token of ordinary characters stands in it as it is,
    between single quotes.  Reached through [run], [echo] is given the
    tokens after the command name as they were tokenized: for "echo a b c"
    the list a, b, c, printed as ['a', 'b', 'c'], and for "echo hi there"
    the list hi, there. *)
Theorem echo_prints_argument_list :
  (forall args s,
     echo args s
     = (Ok PyNone, emitted s [Stdout ("echo args=" ++ PyRepr.str_list args)]))
  /\ (forall line args s (ent : entry),
        Shlex.split line = Ok ("echo" :: args) ->
        commands (runner s) !! "echo" = Some ent ->
        fn ent = m_echo ->
        run line s
        = (Ok PyNone,
           emitted s [Stdout ("echo args=" ++ PyRepr.str_list args)]))
  /\ (forall s,
        commands (runner s) = commands (CommandRunner_init H) ->
        Shlex.split "echo a b c" = Ok ["echo"; "a"; "b"; "c"]
        /\ run "echo a b c" s
           = (Ok PyNone, emitted s [Stdout "echo args=['a', 'b', 'c']"])
        /\ run "echo hi there" s
           = (Ok PyNone, emitted s [Stdout "echo args=['hi', 'there']"]))
  /\ (forall args, PyLiteral.read_list (PyRepr.str_list args) = Some args)
  /\ (forall token,
        plain token = true ->
        PyRepr.repr_str token = str1 SQUOTE ++ token ++ str1 SQUOTE).
Proof.
  repeat apply conj.
  - reflexivity.
  - intros line args s ent Hsplit Hlookup Hfn.
    rewrite (run_registered _ _ _ _ _ Hsplit Hlookup), Hfn. reflexivity.
  - intros s Hcommands.
    assert (Hecho : commands (runner s) !! "echo"
                    = Some {| fn := m_echo;
                              desc := "Echo command with arguments" |}).
    { rewrite Hcommands. by vm_compute. }
    split; [reflexivity|]. split.
    + by rewrite (run_registered "echo a b c" "echo" ["a"; "b"; "c"] _ _
                    eq_refl Hecho).
    + by rewrite (run_registered "echo hi there" "echo" ["hi"; "there"] _ _
                    eq_refl Hecho).
  - exact read_list_str_list.
  - exact repr_str_plain.
Qed.

End Properties.

(* ------------------------------------------------------------------ *)
(** ** The configuration loader *)

(** [setup] leaves the two attributes of the command line alone, however
    it ends. *)
Lemma assign_from_keeps_options section f rest self :
  (forall c, configfile (snd (rest c)) = configfile c
             /\ autostart (snd (rest c)) = autostart c) ->
  configfile (snd (assign_from section f rest self)) = configfile self
  /\ autostart (snd (assign_from section f rest self)) = autostart self.
Proof.
  intros Hrest. unfold assign_from.
  destruct (section_get section (field_name f)) as [v|e]; [|done].
  destruct (Hrest (set_field f v self)) as [-> ->]. by destruct f.
Qed.

Lemma setup_keeps_options file self :
  configfile (snd (setup file self)) = configfile self
  /\ autostart (snd (setup file self)) = autostart self.
Proof.
  unfold setup.
  destruct (fileConfig file); [done|].
  destruct (read file) as [config|]; [|done].
  destruct (config !! "client") as [section|]; [|done].
  repeat (apply assign_from_keeps_options; intros ?). done.
Qed.

(** When every [get] returns, the six assignments are made. *)
Lemma setup_assigns file config section self :
  fileConfig file = None ->
  read file = Ok config ->
  config !! "client" = Some section ->
  (forall f, exists v, section_get section (field_name f) = Ok v) ->
  exists self',
    setup file self = (Ok tt, self')
    /\ forall f v,
         section_get section (field_name f) = Ok v ->
         read_field f self' = Assigned v.
Proof.
  intros Hlog Hread Hsection Hall. unfold setup, assign_from.
  rewrite Hlog, Hread, Hsection.
  destruct (Hall f_server) as [v1 H1], (Hall f_port) as [v2 H2],
    (Hall f_institution) as [v3 H3], (Hall f_username) as [v4 H4],
    (Hall f_password) as [v5 H5], (Hall f_location_code) as [v6 H6].
  cbn [field_name] in *. rewrite H1, H2, H3, H4, H5, H6.
  eexists. split; [reflexivity|].
  intros f v Hf. destruct f; cbn [field_name] in Hf; cbn; congruence.
Qed.

(** When a [get] raises, [setup] ends with an exception that a [get]
    raised. *)
Lemma setup_get_raises file config section self f e :
  fileConfig file = None ->
  read file = Ok config ->
  config !! "client" = Some section ->
  section_get section (field_name f) = Raise e ->
  exists f' e' self',
    setup file self = (Raise e', self')
    /\ section_get section (field_name f') = Raise e'.
Proof.
  intros Hlog Hread Hsection Hf. unfold setup, assign_from.
  rewrite Hlog, Hread, Hsection.
  destruct (section_get section (field_name f_server)) eqn:H1;
    [|by exists f_server; eauto].
  destruct (section_get section (field_name f_port)) eqn:H2;
    [|by exists f_port; eauto].
  destruct (section_get section (field_name f_institution)) eqn:H3;
    [|by exists f_institution; eauto].
  destruct (section_get section (field_name f_username)) eqn:H4;
    [|by exists f_username; eauto].
  destruct (section_get section (field_name f_password)) eqn:H5;
    [|by exists f_password; eauto].
  destruct (section_get section (field_name f_location_code)) eqn:H6;
    [|by exists f_location_code; eauto].
  destruct f; congruence.
Qed.

(** What a call of [setup] that returned has done: nothing (the file has
    no [client] section), or the six assignments. *)
Lemma setup_returned file self self' :
  setup file self = (Ok tt, self') ->
  self' = self
  \/ forall f, exists v, read_field f self' = Assigned v.
Proof.
  unfold setup, assign_from.
  destruct (fileConfig file); [done|].
  destruct (read file) as [config|]; [|done].
  destruct (config !! "client") as [section|]; [|by intros [= <-]; left].
  destruct (section_get section (field_name f_server)); [|done].
  destruct (section_get section (field_name f_port)); [|done].
  destruct (section_get section (field_name f_institution)); [|done].
  destruct (section_get section (field_name f_username)); [|done].
  destruct (section_get section (field_name f_password)); [|done].
  destruct (section_get section (field_name f_location_code)); [|done].
  intros [= <-]. right. intros f. destruct f; cbn; eauto.
Qed.

(** C8 (amended).  When the libraries accept the file, the file has the
    [client] section and [get] returns for each of the six options,
    [setup] returns, and each of the six fields holds what [get] returned
    for it, unchecked: [None] for an option the section does not provide.
    When the accepted file has no [client] section, [setup] returns and
    changes nothing; on the object [__init__] built, server, port,
    institution, username and password are then [None].  [setup] does not
    return when [logging.config.fileConfig] raises, when [read] raises (in
    both cases the object is unchanged) or when a [get] raises: the
    exception leaves [setup]. *)
Theorem setup_copies_section (file : config_file) (self : ConfigHandler) :
  (forall config section,
     fileConfig file = None ->
     read file = Ok config ->
     config !! "client" = Some section ->
     (forall f, exists v, section_get section (field_name f) = Ok v) ->
     exists self',
       setup file self = (Ok tt, self')
       /\ (forall f v,
             section_get section (field_name f) = Ok v ->
             read_field f self' = Assigned v)
       /\ (forall f,
             section !! field_name f = None ->
             read_field f self' = Assigned None))
  /\ (forall config,
        fileConfig file = None ->
        read file = Ok config ->
        config !! "client" = None ->
        setup file self = (Ok tt, self)
        /\ forall f,
             f <> f_location_code ->
             read_field f (snd (setup file ConfigHandler_init))
             = Assigned None)
  /\ (forall e, fileConfig file = Some e -> setup file self = (Raise e, self))
  /\ (forall e,
        fileConfig file = None ->
        read file = Raise e ->
        setup file self = (Raise e, self))
  /\ (forall config section f e,
        fileConfig file = None ->
        read file = Ok config ->
        config !! "client" = Some section ->
        section_get section (field_name f) = Raise e ->
        exists f' e' self',
          setup file self = (Raise e', self')
          /\ section_get section (field_name f') = Raise e').
Proof.
  repeat apply conj.
  - intros config section Hlog Hread Hsection Hall.
    destruct (setup_assigns file config section self Hlog Hread Hsection Hall)
      as (self' & Hsetup & Hfields).
    exists self'. repeat split; [exact Hsetup|exact Hfields|].
    intros f Hf. apply Hfields. unfold section_get. by rewrite Hf.
  - intros config Hlog Hread Hsection. unfold setup.
    rewrite Hlog, Hread, Hsection. split; [done|]. by intros [].
  - intros e Hlog. unfold setup. by rewrite Hlog.
  - intros e Hlog Hread. unfold setup. by rewrite Hlog, Hread.
  - intros config section f e. apply setup_get_raises.
Qed.

(* ------------------------------------------------------------------ *)
(** ** Concrete runs *)

(** C2, as stated, fails: with the session handle empty, [login] does not
    print a failure and return [False]; it raises the [AttributeError] of
    [None], before anything is printed or sent. *)
Lemma login_without_client_counterexample :
  client (runner (boot sample_file)) = None
  /\ login (C := online_server) [] (boot sample_file)
     = (Raise (AttributeError "'NoneType' object has no attribute 'login'"),
        boot sample_file)
  /\ fst (login (C := online_server) [] (boot sample_file)) <> Ok PyFalse
  /\ trace (snd (login (C := online_server) [] (boot sample_file))) = [].
Proof. repeat split. discriminate. Qed.

Lemma login_without_client_witness :
  connect (C := unreachable_server) [] (boot sample_file)
  = (Ok PyFalse, after_failed_connect)
  /\ client (runner after_failed_connect) = None
  /\ login (C := unreachable_server) [] after_failed_connect
     = (Raise (NoneType_has_no "login"), after_failed_connect).
Proof.
  assert (Hconnect : connect (C := unreachable_server) [] (boot sample_file)
                     = (Ok PyFalse, after_failed_connect))
    by (vm_compute; reflexivity).
  split; [exact Hconnect|].
  exact (proj2 (login_without_client_faults (C := unreachable_server))
           [] [] _ _ Hconnect).
Defined.

(** C3, as stated, fails: with no port configured (no [client] section in
    the file) or a port that is not a number, [connect] raises at
    [int(conf.port)], before the [try]: the exception leaves the handler
    and no message is printed, however reachable the server is. *)
Lemma connect_without_port_counterexample :
  port (config (boot ∅)) = None
  /\ connect (C := online_server) [] (boot ∅)
     = (Raise (TypeError "int() argument must be a string, a bytes-like object or a real number, not 'NoneType'"),
        boot ∅)
  /\ port (config (boot malformed_file)) = Some "sixty"
  /\ connect (C := online_server) [] (boot malformed_file)
     = (Raise (ValueError "invalid literal for int() with base 10: 'sixty'"),
        boot malformed_file)
  /\ trace (snd (connect (C := online_server) [] (boot ∅))) = [].
Proof. repeat split. Qed.

Lemma connect_failure_contained_witness :
  connect (C := unreachable_server) [] (boot sample_file)
  = (Ok PyFalse, after_failed_connect)
  /\ client (runner after_failed_connect) = None
  /\ trace after_failed_connect
     = [Called (call_Client (Some "localhost") 6001);
        Called (call_set_default_institution (Some "example"));
        Called call_connect;
        Stdout "Unable to connect to server localhost port 6001"].
Proof.
  pose proof (connect_failure_contained (C := unreachable_server) []
                (boot sample_file) 6001 6001 1%nat "Connection refused"
                3%nat eq_refl eq_refl eq_refl) as Hconnect.
  split; [rewrite Hconnect; vm_compute; reflexivity|].
  split; reflexivity.
Defined.

Lemma start_short_circuits_witness :
  connect (C := unreachable_server) [] (boot sample_file)
  = (Ok PyFalse, after_failed_connect)
  /\ start (C := unreachable_server) [] (boot sample_file)
     = (Ok PyNone, after_failed_connect)
  /\ calls (trace (snd (start (C := unreachable_server) []
                          (boot sample_file))))
     = calls (trace after_failed_connect).
Proof.
  assert (Hconnect : connect (C := unreachable_server) [] (boot sample_file)
                     = (Ok PyFalse, after_failed_connect))
    by (vm_compute; reflexivity).
  split; [exact Hconnect|].
  exact (proj1 (proj2 (proj2 (start_short_circuits
                                (C := unreachable_server) [])))
           _ _ _ Hconnect eq_refl).
Defined.

Lemma run_command_not_found_witness :
  run (C := online_server) "bogus" (boot sample_file)
  = (Ok PyNone, emitted (boot sample_file) [Stderr "Command not found: bogus"]).
Proof.
  apply (run_command_not_found (C := online_server) "bogus" "bogus" []).
  - reflexivity.
  - vm_compute. reflexivity.
Defined.

Lemma help_lists_commands_in_order_witness :
  help [] after_connect
  = (Ok PyTrue,
     emitted after_connect
       [Stdout "Commands:";
        Stdout "  help - Display help message";
        Stdout "  echo - Echo command with arguments";
        Stdout "  exit - Exit shell";
        Stdout "  quit - Exit shell";
        Stdout "  connect - Open a network connection to the SIP server.";
        Stdout "  login - Send a 93 Login request.";
        Stdout "  status - Send a 99 SC Status request message.";
        Stdout ("  start - Shortcut for a combination of "
                ++ dquoted "connect" ++ ", " ++ dquoted "login"
                ++ ", and " ++ dquoted "status" ++ " commands.");
        Stdout "  patron-info - Send a 63 Patron Information Request message."]).
Proof.
  apply (help_lists_commands_in_order [] after_connect);
    reflexivity.
Defined.

Lemma patron_info_requires_barcode_witness :
  client (runner after_connect) = Some 6001
  /\ patron_info (C := online_server) ["21000123"] after_connect
     = (Ok PyTrue,
        {| runner := runner after_connect; config := config after_connect;
           world := 4%nat;
           trace := trace after_connect
                    ++ [Called (call_patron_info_request "21000123");
                        Stdout "6421000123"] |}).
Proof.
  split; [reflexivity|].
  apply (proj2 (patron_info_requires_barcode (C := online_server))
           "21000123" [] after_connect 6001 "6421000123" 4%nat);
    reflexivity.
Defined.

(** C8, as stated, fails.  A port that is not a number is kept as [get]
    returns it, not left empty.  A password that [get] cannot interpolate
    is not left empty either: the exception leaves [setup], after server
    and port have been assigned.  And with no [client] section in the
    file, [location_code] is not an empty field: the attribute is
    missing. *)
Lemma setup_keeps_malformed_port_counterexample :
  PyInt.int (Some "sixty")
  = Raise (ValueError "invalid literal for int() with base 10: 'sixty'")
  /\ fst (setup (accepted malformed_file) ConfigHandler_init) = Ok tt
  /\ read_field f_port (snd (setup (accepted malformed_file)
                               ConfigHandler_init))
     = Assigned (Some "sixty")
  /\ read_field f_port (snd (setup (accepted malformed_file)
                               ConfigHandler_init))
     <> Assigned None
  /\ fst (setup (accepted percent_file) ConfigHandler_init)
     = Raise (LibraryError "InterpolationSyntaxError"
                "'%' must be followed by '%' or '(', found: '%off'")
  /\ read_field f_port (snd (setup (accepted percent_file)
                               ConfigHandler_init))
     = Assigned (Some "6001")
  /\ fst (setup (accepted ∅) ConfigHandler_init) = Ok tt
  /\ read_field f_location_code (snd (setup (accepted ∅)
                                        ConfigHandler_init))
     = Unset.
Proof. repeat split. discriminate. Qed.

Lemma setup_copies_section_witness :
  (exists self',
     setup (accepted sample_file) ConfigHandler_init = (Ok tt, self')
     /\ read_field f_port self' = Assigned (Some "6001")
     /\ read_field f_location_code self' = Assigned (Some "main"))
  /\ (exists self',
        setup (accepted malformed_file) ConfigHandler_init = (Ok tt, self')
        /\ read_field f_institution self' = Assigned None)
  /\ setup (accepted logging_only_file) ConfigHandler_init
     = (Ok tt, ConfigHandler_init)
  /\ setup missing_file ConfigHandler_init
     = (Raise (KeyError "formatters"), ConfigHandler_init)
  /\ exists f e self',
       setup (accepted percent_file) ConfigHandler_init = (Raise e, self')
       /\ section_get
            {[ "server" := Ok "localhost"; "port" := Ok "6001";
               "password" :=
                 Raise (LibraryError "InterpolationSyntaxError"
                          "'%' must be followed by '%' or '(', found: '%off'") ]}
            (field_name f)
          = Raise e.
Proof.
  repeat apply conj.
  - destruct (proj1 (setup_copies_section (accepted sample_file)
                       ConfigHandler_init)
                sample_file _ eq_refl eq_refl eq_refl)
      as (self' & Hsetup & Hfields & _).
    { intros []; eexists; reflexivity. }
    exists self'. split; [exact Hsetup|].
    split; apply Hfields; reflexivity.
  - destruct (proj1 (setup_copies_section (accepted malformed_file)
                       ConfigHandler_init)
                malformed_file _ eq_refl eq_refl eq_refl)
      as (self' & Hsetup & _ & Hmissing).
    { intros []; eexists; reflexivity. }
    exists self'. split; [exact Hsetup|].
    apply Hmissing. reflexivity.
  - exact (proj1 (proj1 (proj2 (setup_copies_section
                                  (accepted logging_only_file)
                                  ConfigHandler_init))
                    logging_only_file eq_refl eq_refl eq_refl)).
  - exact (proj1 (proj2 (proj2 (setup_copies_section missing_file
                                  ConfigHandler_init)))
             (KeyError "formatters") eq_refl).
  - exact (proj2 (proj2 (proj2 (proj2 (setup_copies_section
                                         (accepted percent_file)
                                         ConfigHandler_init))))
             percent_file _ f_password _ eq_refl eq_refl eq_refl eq_refl).
Defined.

Lemma echo_prints_argument_list_witness :
  run (C := online_server) "echo a b c" (boot sample_file)
  = (Ok PyNone, emitted (boot sample_file) [Stdout "echo args=['a', 'b', 'c']"]).
Proof.
  exact (proj1 (proj2 (proj1 (proj2 (proj2
           (echo_prints_argument_list (C := online_server))))
           (boot sample_file) eq_refl))).
Defined.


(* ------------------------------------------------------------------ *)
(** * Further properties of the handlers *)

Section HandlerProperties.

Context {W H R : Type} {C : Collaborator W H R}.

Implicit Types (s : system W H) (args : list string).

(** X1.  When the port is a number, the client object is built and its
    [connect()] returns, [connect] keeps the new client as the session
    handle, whatever the handle was before, prints "Connect OK" and
    returns [True], after exactly three calls into the client: the
    constructor, the assignment of the institution, [connect()]. *)
Theorem connect_success_replaces_session args s p c w1 w2 :
  PyInt.int (port (config s)) = Ok p ->
  Client (server (config s)) p (world s) = (Returns c, w1) ->
  client_connect c (set_default_institution c (institution (config s)) w1)
  = (Returns tt, w2) ->
  connect args s
  = (Ok PyTrue,
     {| runner := {| client := Some c;
                     commands := commands (runner s);
                     commands_sorted := commands_sorted (runner s) |};
        config := config s;
        world := w2;
        trace := trace s
                 ++ [Called (call_Client (server (config s)) p);
                     Called (call_set_default_institution
                               (institution (config s)));
                     Called call_connect;
                     Stdout "Connect OK"] |}).
Proof.
  intros Hport Hnew Hconn.
  unfold connect, bind, get_config, lift, client_call, try_except,
    self_client, set_client, print, log, ret; cbn.
  rewrite Hport; cbn. rewrite Hnew; cbn. rewrite Hconn; cbn.
  by rewrite <- !app_assoc.
Qed.

(** X2.  A failure of the constructor [Client(server, port)] is not inside
    the [try]: it leaves [connect] as an exception, nothing is printed, and
    the dispatcher keeps the session handle it had. *)
Theorem connect_constructor_failure_escapes args s p msg w1 :
  PyInt.int (port (config s)) = Ok p ->
  Client (server (config s)) p (world s) = (Fails msg, w1) ->
  connect args s
  = (Raise (ClientError msg),
     {| runner := runner s;
        config := config s;
        world := w1;
        trace := trace s ++ [Called (call_Client (server (config s)) p)] |}).
Proof.
  intros Hport Hnew.
  unfold connect, bind, get_config, lift, client_call; cbn.
  rewrite Hport; cbn. by rewrite Hnew.
Qed.

(** X3.  With a session handle, [login] sends the configured user name,
    password and location code in one call and reports what the client
    answers: "Login OK" and [True], or "Login Failed" and [False].  The
    session handle stays as it was in both cases. *)
Theorem login_reports_client_answer args s c location ok w' :
  client (runner s) = Some c ->
  location_code (config s) = Assigned location ->
  client_login c (username (config s)) (password (config s)) location
    (world s)
  = (Returns ok, w') ->
  login args s
  = (Ok (PyBool ok),
     {| runner := runner s;
        config := config s;
        world := w';
        trace := trace s
                 ++ [Called (call_login (username (config s))
                               (password (config s)) location);
                     Stdout (if ok then "Login OK" else "Login Failed")] |}).
Proof.
  intros Hclient Hlocation Hlogin.
  unfold login, bind, get_config, self_client, getattr, client_call, print,
    log, ret; cbn.
  rewrite Hclient, Hlocation; cbn. rewrite Hlogin.
  destruct ok; cbn; by rewrite <- app_assoc.
Qed.

(** X4.  With a session handle and a response whose [online_status] field
    has a value, [status] returns [True] exactly when that value is the
    string "Y", printing "Server is online"; for any other value, [None]
    included, it prints "Server is NOT online" and then the response, and
    returns [False].  One call is made in both cases. *)
Theorem status_online_exactly_on_Y args s c resp w' v :
  client (runner s) = Some c ->
  client_sc_status c (world s) = (Returns resp, w') ->
  fixed_field_value resp "online_status" = Returns v ->
  status args s
  = (Ok (PyBool (bool_decide (v = Some "Y"))),
     {| runner := runner s;
        config := config s;
        world := w';
        trace := trace s
                 ++ Called call_sc_status
                    :: (if bool_decide (v = Some "Y")
                        then [Stdout "Server is online"]
                        else [Stdout "Server is NOT online";
                              Stdout (resp_repr resp)]) |}).
Proof.
  intros Hclient Hstatus Hfield.
  unfold status, bind, self_client, client_call, print, log, ret; cbn.
  rewrite Hclient; cbn. rewrite Hstatus; cbn. rewrite Hfield; cbn.
  destruct (bool_decide (v = Some "Y")); cbn; by rewrite <- !app_assoc.
Qed.

(** X5.  With the session handle empty, [status] and [patron_info] with a
    barcode stop at the attribute of [None], as [login] does: an
    [AttributeError] that names the method, nothing printed, no call. *)
Theorem status_and_patron_info_need_a_session args barcode rest s :
  client (runner s) = None ->
  status args s = (Raise (NoneType_has_no "sc_status"), s)
  /\ patron_info (barcode :: rest) s
     = (Raise (NoneType_has_no "patron_info_request"), s).
Proof.
  intros Hclient.
  unfold status, patron_info, bind, self_client; cbn. by rewrite Hclient.
Qed.

(** X6.  Only [connect] catches what the client raises.  A failure of the
    client in [login], [status] or [patron_info] leaves the handler as an
    exception, after the call and before anything is printed; the session
    handle is kept. *)
Theorem client_failure_escapes_other_handlers args barcode rest s c :
  client (runner s) = Some c ->
  (forall location msg w',
     location_code (config s) = Assigned location ->
     client_login c (username (config s)) (password (config s)) location
       (world s)
     = (Fails msg, w') ->
     login args s
     = (Raise (ClientError msg),
        {| runner := runner s; config := config s; world := w';
           trace := trace s
                    ++ [Called (call_login (username (config s))
                                  (password (config s)) location)] |}))
  /\ (forall msg w',
        client_sc_status c (world s) = (Fails msg, w') ->
        status args s
        = (Raise (ClientError msg),
           {| runner := runner s; config := config s; world := w';
              trace := trace s ++ [Called call_sc_status] |}))
  /\ (forall msg w',
        client_patron_info_request c barcode (world s) = (Fails msg, w') ->
        patron_info (barcode :: rest) s
        = (Raise (ClientError msg),
           {| runner := runner s; config := config s; world := w';
              trace := trace s
                       ++ [Called (call_patron_info_request barcode)] |})).
Proof.
  intros Hclient. repeat apply conj.
  - intros location msg w' Hlocation Hlogin.
    unfold login, bind, get_config, self_client, getattr, client_call, ret;
      cbn.
    rewrite Hclient, Hlocation; cbn. by rewrite Hlogin.
  - intros msg w' Hstatus.
    unfold status, bind, self_client, client_call; cbn.
    rewrite Hclient; cbn. by rewrite Hstatus.
  - intros msg w' Hrequest.
    unfold patron_info, bind, self_client, getitem, client_call, ret; cbn.
    rewrite Hclient; cbn. by rewrite Hrequest.
Qed.

(** X7.  When every step succeeds, [start] makes the calls and prints the
    lines of [connect], [login] and [status] in that order: "Connect OK",
    "Login OK", "Server is online"; the new client is the session
    handle. *)
Theorem start_success_sequence args s p c w1 w2 location w3 resp w4 :
  PyInt.int (port (config s)) = Ok p ->
  Client (server (config s)) p (world s) = (Returns c, w1) ->
  client_connect c (set_default_institution c (institution (config s)) w1)
  = (Returns tt, w2) ->
  location_code (config s) = Assigned location ->
  client_login c (username (config s)) (password (config s)) location w2
  = (Returns true, w3) ->
  client_sc_status c w3 = (Returns resp, w4) ->
  fixed_field_value resp "online_status" = Returns (Some "Y") ->
  start args s
  = (Ok PyNone,
     {| runner := {| client := Some c;
                     commands := commands (runner s);
                     commands_sorted := commands_sorted (runner s) |};
        config := config s;
        world := w4;
        trace := trace s
                 ++ [Called (call_Client (server (config s)) p);
                     Called (call_set_default_institution
                               (institution (config s)));
                     Called call_connect;
                     Stdout "Connect OK";
                     Called (call_login (username (config s))
                               (password (config s)) location);
                     Stdout "Login OK";
                     Called call_sc_status;
                     Stdout "Server is online"] |}).
Proof.
  intros Hport Hnew Hconn Hlocation Hlogin Hstatus Hfield.
  unfold start, connect, login, status, bind, get_config, lift, client_call,
    try_except, self_client, set_client, getattr, print, log, ret; cbn.
  rewrite Hport; cbn. rewrite Hnew; cbn. rewrite Hconn; cbn.
  rewrite Hlocation; cbn. rewrite Hlogin; cbn. rewrite Hstatus; cbn.
  rewrite Hfield; cbn. rewrite bool_decide_eq_true_2 by done; cbn.
  by rewrite <- !app_assoc.
Qed.

End HandlerProperties.

(* ------------------------------------------------------------------ *)
(** * The registry *)

Section RegistryProperties.

Context {W H R : Type} {C : Collaborator W H R}.

Implicit Types (s : system W H) (args : list string) (r : CommandRunner H).

(** X8.  [add_command] makes the name answer with the handler and the
    description given, leaves every other name as it was, lists the name
    last for [help], does not touch the session handle, and keeps the
    registry well formed. *)
Theorem add_command_registers cmd f d r :
  commands (add_command cmd f d r) !! cmd = Some {| fn := f; desc := d |}
  /\ (forall other,
        other <> cmd ->
        commands (add_command cmd f d r) !! other = commands r !! other)
  /\ commands_sorted (add_command cmd f d r)
     = (commands_sorted r ++ [cmd])%list
  /\ client (add_command cmd f d r) = client r
  /\ (well_formed r -> well_formed (add_command cmd f d r)).
Proof.
  unfold add_command, well_formed; cbn. repeat apply conj.
  - apply lookup_insert_eq.
  - intros other Hother. by apply lookup_insert_ne.
  - reflexivity.
  - reflexivity.
  - intros Hwf. apply Forall_app. split.
    + eapply Forall_impl; [exact Hwf|]. intros name [e He]. cbn in *.
      destruct (decide (cmd = name)) as [->|Hne].
      * rewrite lookup_insert_eq. by eexists.
      * rewrite lookup_insert_ne by done. by eexists.
    + apply Forall_singleton. rewrite lookup_insert_eq. by eexists.
Qed.

(** X9.  Registering a name a second time replaces its handler and its
    description, and lists the name a second time: [help] then shows it
    twice, both times with the new description. *)
Theorem add_command_twice_lists_twice cmd f1 d1 f2 d2 args s :
  runner s
  = add_command cmd f2 d2
      (add_command cmd f1 d1
         {| client := None; commands := ∅; commands_sorted := [] |}) ->
  commands (runner s) !! cmd = Some {| fn := f2; desc := d2 |}
  /\ commands_sorted (runner s) = [cmd; cmd]
  /\ help args s
     = (Ok PyTrue,
        emitted s [Stdout "Commands:";
                   Stdout ("  " ++ cmd ++ " - " ++ d2);
                   Stdout ("  " ++ cmd ++ " - " ++ d2)]).
Proof.
  intros Hrunner.
  assert (Hlookup : commands (runner s) !! cmd
                    = Some {| fn := f2; desc := d2 |}).
  { rewrite Hrunner. cbn. apply lookup_insert_eq. }
  assert (Hsorted : commands_sorted (runner s) = [cmd; cmd])
    by (by rewrite Hrunner).
  split; [exact Hlookup|]. split; [exact Hsorted|].
  unfold help.
  rewrite (bind_Ok _ _ _ _ _ (print_emitted _ _)).
  unfold bind at 1, get_runner. cbn [runner emitted].
  rewrite Hsorted. cbn [for_each]. unfold bind, ret.
  rewrite Hlookup, !print_emitted, !emitted_emitted. reflexivity.
Qed.

(** X10.  On a well-formed registry [help] never fails: it prints the
    heading and one line for each registration, in order, each with the
    description the name has now, and returns [True]. *)
Theorem help_lists_every_registration args s :
  well_formed (runner s) ->
  help args s
  = (Ok PyTrue,
     emitted s
       (Stdout "Commands:"
        :: map (fun cmd =>
                  Stdout ("  " ++ cmd ++ " - "
                          ++ from_option desc "" (commands (runner s) !! cmd)))
             (commands_sorted (runner s)))).
Proof.
  intros Hwf. unfold help.
  rewrite (bind_Ok _ _ _ _ _ (print_emitted _ _)).
  unfold bind at 1, get_runner. cbn [runner emitted].
  erewrite bind_Ok; [|by apply for_each_help_lines].
  unfold ret. by rewrite emitted_emitted.
Qed.

(** The registry of [__init__] maps the names of the catalogue, and no
    other name, to their methods. *)
Lemma CommandRunner_init_methods cmd :
  fn <$> commands (CommandRunner_init H) !! cmd
  = (list_to_map catalogue : gmap string method) !! cmd.
Proof.
  destruct (decide (cmd = "help")) as [->|?]; [vm_compute; reflexivity|].
  destruct (decide (cmd = "echo")) as [->|?]; [vm_compute; reflexivity|].
  destruct (decide (cmd = "exit")) as [->|?]; [vm_compute; reflexivity|].
  destruct (decide (cmd = "quit")) as [->|?]; [vm_compute; reflexivity|].
  destruct (decide (cmd = "connect")) as [->|?]; [vm_compute; reflexivity|].
  destruct (decide (cmd = "login")) as [->|?]; [vm_compute; reflexivity|].
  destruct (decide (cmd = "status")) as [->|?]; [vm_compute; reflexivity|].
  destruct (decide (cmd = "start")) as [->|?]; [vm_compute; reflexivity|].
  destruct (decide (cmd = "patron-info")) as [->|?];
    [vm_compute; reflexivity|].
  unfold CommandRunner_init, add_command, catalogue.
  cbn [commands list_to_map foldr fst snd uncurry].
  rewrite !lookup_insert_ne by done. by rewrite lookup_empty.
Qed.

(** X11.  On the registry [__init__] builds, a line that tokenizes is
    dispatched by its first token alone, compared as it is (the names are
    case sensitive): a name of the catalogue runs its handler on the
    remaining tokens, any other token is reported as not found.  [exit]
    and [quit] run the same handler. *)
Theorem run_dispatches_on_the_catalogue line command args s :
  commands (runner s) = commands (CommandRunner_init H) ->
  Shlex.split line = Ok (command :: args) ->
  run line s
  = match (list_to_map catalogue : gmap string method) !! command with
    | Some m => body m args s
    | None =>
        (Ok PyNone, emitted s [Stderr ("Command not found: " ++ command)])
    end.
Proof.
  intros Hcommands Hsplit.
  rewrite <- CommandRunner_init_methods, <- Hcommands.
  unfold run, bind, lift. rewrite Hsplit. cbn.
  destruct (commands (runner s) !! command) as [ent|]; cbn; [|done].
  by rewrite call_method_body.
Qed.

(** X12.  A line whose first token is [exit] or [quit], whatever follows
    it, prints "Goodbye" and raises [SystemExit(0)]; the read loop ends
    there and the lines after it are not read. *)
Theorem exit_and_quit_end_the_session line command args lines s :
  commands (runner s) = commands (CommandRunner_init H) ->
  Shlex.split line = Ok (command :: args) ->
  command = "exit" \/ command = "quit" ->
  run line s = (Raise (SystemExit 0), emitted s [Stdout "Goodbye"])
  /\ interact (line :: lines) s
     = (Raise (SystemExit 0), emitted s [Stdout "Goodbye"]).
Proof.
  intros Hcommands Hsplit Hcommand.
  assert (Hlookup : fn <$> commands (runner s) !! command = Some m_exit).
  { rewrite Hcommands, CommandRunner_init_methods.
    destruct Hcommand as [-> | ->]; vm_compute; reflexivity. }
  destruct (commands (runner s) !! command) as [ent|] eqn:Hent;
    [|discriminate].
  injection Hlookup as Hfn.
  assert (Hrun : run line s
                 = (Raise (SystemExit 0), emitted s [Stdout "Goodbye"])).
  { rewrite (run_registered _ _ _ _ _ Hsplit Hent), Hfn. reflexivity. }
  split; [exact Hrun|].
  cbn [interact]. unfold bind at 1. by rewrite Hrun.
Qed.

End RegistryProperties.

(* ------------------------------------------------------------------ *)
(** * The tokenizer as [run] uses it *)

Lemma list_ascii_of_string_app (a b : string) :
  list_ascii_of_string (a ++ b)
  = (list_ascii_of_string a ++ list_ascii_of_string b)%list.
Proof.
  induction a as [|c a IH]; [done|].
  rewrite string_app_cons. cbn. by rewrite IH.
Qed.

Lemma ordinary_char_classes c :
  ordinary_char c = true ->
  char_in c Shlex.whitespace = false /\ char_in c Shlex.commenters = false
  /\ char_in c Shlex.quotes = false /\ char_in c Shlex.escape = false.
Proof.
  unfold ordinary_char. intros Hc.
  repeat (apply andb_prop in Hc as [Hc ?]).
  repeat split; by apply negb_true_iff.
Qed.

(** Ordinary characters, read in a word, are added to the token. *)
Lemma read_tokens_word est quoted token w rest :
  forallb ordinary_char (list_ascii_of_string w) = true ->
  Shlex.read_tokens false Shlex.InWord est quoted token
    (list_ascii_of_string w ++ rest)%list
  = Shlex.read_tokens false Shlex.InWord est quoted (token ++ w) rest.
Proof.
  revert token. induction w as [|c w IH]; intros token Hw.
  - by rewrite string_app_nil_r.
  - cbn in Hw. apply andb_prop in Hw as [Hc Hw].
    destruct (ordinary_char_classes _ Hc) as (Hws & Hcm & Hqu & Hes).
    cbn [list_ascii_of_string app Shlex.read_tokens].
    rewrite Hws, Hcm, Hqu, Hes, (IH _ Hw).
    f_equal. by rewrite string_app_assoc.
Qed.

(** A word, read between tokens, becomes the token. *)
Lemma read_tokens_start_word est w rest :
  is_word w = true ->
  Shlex.read_tokens false Shlex.InSpace est false "" 
    (list_ascii_of_string w ++ rest)%list
  = Shlex.read_tokens false Shlex.InWord est false w rest.
Proof.
  unfold is_word. destruct w as [|c w]; [done|]. cbn [str_is_empty negb andb].
  intros Hw. cbn in Hw. apply andb_prop in Hw as [Hc Hw].
  destruct (ordinary_char_classes _ Hc) as (Hws & Hcm & Hqu & Hes).
  cbn [list_ascii_of_string app Shlex.read_tokens].
  rewrite Hws, Hcm, Hqu, Hes, (read_tokens_word _ _ _ _ _ Hw).
  reflexivity.
Qed.

Lemma is_word_not_empty w : is_word w = true -> str_is_empty w = false.
Proof. unfold is_word. by destruct w. Qed.

(** Words separated by single spaces are the tokens. *)
Lemma read_tokens_words est words :
  Forall (fun w => is_word w = true) words ->
  Shlex.read_tokens false Shlex.InSpace est false ""
    (list_ascii_of_string (PyRepr.join " " words))
  = Ok words.
Proof.
  intros Hwords. revert est.
  induction Hwords as [|w words Hw Hwords IH]; intros est; [done|].
  destruct words as [|w' words].
  - cbn [PyRepr.join].
    rewrite <- (app_nil_r (list_ascii_of_string w)).
    rewrite (read_tokens_start_word _ _ _ Hw). cbn.
    unfold Shlex.emit. by rewrite (is_word_not_empty _ Hw).
  - rewrite join_cons2, list_ascii_of_string_app.
    rewrite (read_tokens_start_word _ _ _ Hw).
    rewrite list_ascii_of_string_app.
    cbn [list_ascii_of_string app Shlex.read_tokens].
    change (char_in " " Shlex.whitespace) with true. cbn match.
    rewrite (is_word_not_empty _ Hw). cbn [negb orb].
    rewrite IH. unfold Shlex.emit.
    by rewrite (is_word_not_empty _ Hw).
Qed.

Lemma split_words words :
  Forall (fun w => is_word w = true) words ->
  Shlex.split (PyRepr.join " " words) = Ok words.
Proof. apply read_tokens_words. Qed.

(** Inside a comment, characters are dropped up to the line break. *)
Lemma read_tokens_skip_line st est quoted token text :
  one_line text = true ->
  Shlex.read_tokens true st est quoted token (list_ascii_of_string text)
  = Shlex.read_tokens true st est quoted token [].
Proof.
  unfold one_line.
  induction text as [|c text IH]; [done|]. cbn.
  intros [Hc Htext]%andb_prop. rewrite Hc. by apply IH.
Qed.

(** What follows a comment sign, up to the end of the line, changes
    nothing to the tokens of a line that has tokens. *)
Lemma read_tokens_comment comment l skip st est quoted token tokens :
  one_line comment = true ->
  Shlex.read_tokens skip st est quoted token l = Ok tokens ->
  Shlex.read_tokens skip st est quoted token
    (l ++ list_ascii_of_string ("#" ++ comment))
  = Ok tokens.
Proof.
  intros Hline. revert skip st est quoted token tokens.
  induction l as [|c l IH]; intros skip st est quoted token tokens.
  - rewrite app_nil_l.
    change (list_ascii_of_string ("#" ++ comment))
      with ("#"%char :: list_ascii_of_string comment).
    destruct skip.
    + cbn [Shlex.read_tokens]. change (char_eqb "#" LF) with false.
      cbn [negb]. by rewrite (read_tokens_skip_line _ _ _ _ _ Hline).
    + destruct st; cbn [Shlex.read_tokens]; try discriminate.
      * change (char_in "#" Shlex.whitespace) with false.
        change (char_in "#" Shlex.commenters) with true. cbn match.
        by rewrite (read_tokens_skip_line _ _ _ _ _ Hline).
      * change (char_in "#" Shlex.whitespace) with false.
        change (char_in "#" Shlex.commenters) with true. cbn match.
        rewrite !(read_tokens_skip_line _ _ _ _ _ Hline).
        cbn [Shlex.read_tokens]. unfold Shlex.emit.
        destruct (str_is_empty token), quoted; cbn; by intros [= <-].
  - rewrite <- app_comm_cons. cbn [Shlex.read_tokens].
    unfold Shlex.emit.
    repeat case_match; intros Hok; simplify_eq;
      try reflexivity;
      try (by eapply IH);
      try (by erewrite IH in * by done; simplify_eq).
Qed.

Lemma split_comment line comment tokens :
  one_line comment = true ->
  Shlex.split line = Ok tokens ->
  Shlex.split (line ++ "#" ++ comment) = Ok tokens.
Proof.
  intros Hline Hsplit. unfold Shlex.split.
  rewrite list_ascii_of_string_app. by apply read_tokens_comment.
Qed.

(** Between single quotes every character but the single quote is taken
    as it is, up to the closing quote; with no closing quote the tokenizer
    raises. *)
Lemma read_tokens_single_quoted est quoted token text rest :
  no_single_quote text = true ->
  Shlex.read_tokens false (Shlex.InQuote SQUOTE) est quoted token
    (list_ascii_of_string text ++ SQUOTE :: rest)%list
  = Shlex.read_tokens false Shlex.InWord est true (token ++ text) rest.
Proof.
  unfold no_single_quote. revert quoted token.
  induction text as [|c text IH]; intros quoted token.
  - intros _. rewrite string_app_nil_r. cbn.
    by change (char_eqb SQUOTE SQUOTE) with true.
  - cbn. intros [Hc Htext]%andb_prop.
    apply negb_true_iff in Hc. rewrite Hc.
    change (char_in SQUOTE Shlex.escapedquotes) with false.
    rewrite andb_false_r, (IH _ _ Htext). by rewrite string_app_assoc.
Qed.

Lemma read_tokens_single_quote_open est quoted token text :
  no_single_quote text = true ->
  Shlex.read_tokens false (Shlex.InQuote SQUOTE) est quoted token
    (list_ascii_of_string text)
  = Raise (ValueError "No closing quotation").
Proof.
  unfold no_single_quote. revert quoted token.
  induction text as [|c text IH]; intros quoted token; [done|].
  cbn. intros [Hc Htext]%andb_prop.
  apply negb_true_iff in Hc. rewrite Hc.
  change (char_in SQUOTE Shlex.escapedquotes) with false.
  by rewrite andb_false_r, (IH _ _ Htext).
Qed.

Lemma split_single_quoted command text :
  is_word command = true ->
  no_single_quote text = true ->
  Shlex.split (command ++ " '" ++ text ++ "'") = Ok [command; text]
  /\ Shlex.split (command ++ " '" ++ text)
     = Raise (ValueError "No closing quotation").
Proof.
  intros Hcommand Htext. unfold Shlex.split.
  rewrite !list_ascii_of_string_app.
  rewrite !(read_tokens_start_word _ _ _ Hcommand).
  change (list_ascii_of_string " '") with [" "%char; SQUOTE].
  change (list_ascii_of_string "'") with [SQUOTE].
  cbn [app Shlex.read_tokens].
  change (char_in " " Shlex.whitespace) with true. cbn match.
  rewrite (is_word_not_empty _ Hcommand). cbn [negb orb].
  change (char_in SQUOTE Shlex.whitespace) with false.
  change (char_in SQUOTE Shlex.commenters) with false.
  change (char_in SQUOTE Shlex.escape) with false.
  change (char_in SQUOTE Shlex.quotes) with true. cbn match.
  rewrite (read_tokens_single_quoted _ _ _ _ [] Htext).
  rewrite (read_tokens_single_quote_open _ _ _ _ Htext).
  cbn [Shlex.read_tokens]. unfold Shlex.emit. cbn.
  by rewrite (is_word_not_empty _ Hcommand).
Qed.

(** The tokenizer raises nothing but its two [ValueError]s. *)
Lemma emit_Raise quoted token rest e :
  Shlex.emit quoted token rest = Raise e -> rest = Raise e.
Proof. unfold Shlex.emit. repeat case_match; congruence. Qed.

Lemma read_tokens_errors l skip st est quoted token e :
  Shlex.read_tokens skip st est quoted token l = Raise e ->
  e = ValueError "No closing quotation"
  \/ e = ValueError "No escaped character".
Proof.
  revert skip st est quoted token.
  induction l as [|c l IH]; intros skip st est quoted token;
    cbn [Shlex.read_tokens].
  - destruct st; unfold Shlex.emit; repeat case_match; intros [= <-]; auto.
  - repeat case_match; intros Hraise;
      try apply emit_Raise in Hraise; by eapply IH.
Qed.

Section TokenizedLines.

Context {W H R : Type} {C : Collaborator W H R}.

Implicit Types (s : system W H) (ent : entry).

(** X13.  A registered command followed by words, all separated by single
    spaces, runs its handler on exactly those words, in order. *)
Theorem run_passes_the_words command words s ent :
  is_word command = true ->
  Forall (fun w => is_word w = true) words ->
  commands (runner s) !! command = Some ent ->
  run (PyRepr.join " " (command :: words)) s = body (fn ent) words s.
Proof.
  intros Hcommand Hwords Hlookup.
  apply (run_registered _ command words); [|done].
  apply split_words. by constructor.
Qed.

(** X14.  A comment sign and what follows it on the line are dropped: a
    line that has tokens runs the same with a comment appended.  The sign
    need not stand at the start of a word: glued to a word it cuts the
    word there. *)
Theorem run_ignores_a_comment :
  (forall line comment tokens s,
     one_line comment = true ->
     Shlex.split line = Ok tokens ->
     Shlex.split (line ++ "#" ++ comment) = Ok tokens
     /\ run (line ++ "#" ++ comment) s = run line s)
  /\ (forall word comment,
        is_word word = true ->
        one_line comment = true ->
        Shlex.split (word ++ "#" ++ comment) = Ok [word]).
Proof.
  split.
  - intros line comment tokens s Hline Hsplit.
    pose proof (split_comment _ _ _ Hline Hsplit) as Hsplit'.
    split; [done|]. unfold run. by rewrite Hsplit, Hsplit'.
  - intros word comment Hword Hline.
    apply split_comment; [done|].
    apply (split_words [word]). by constructor.
Qed.

(** X15.  An argument between single quotes reaches the handler as one
    token, character for character: spaces, comment signs, double quotes
    and backslashes in it are kept, and an empty pair of quotes is an
    empty argument. *)
Theorem run_keeps_a_single_quoted_argument command text s ent :
  is_word command = true ->
  no_single_quote text = true ->
  commands (runner s) !! command = Some ent ->
  run (command ++ " '" ++ text ++ "'") s = body (fn ent) [text] s.
Proof.
  intros Hcommand Htext Hlookup.
  apply (run_registered _ command [text]); [|done].
  by apply split_single_quoted.
Qed.

(** X16.  A line the tokenizer rejects makes [run] raise, before the
    registry is looked at: nothing is printed and the state is kept.  The
    exception is a [ValueError], "No closing quotation" or "No escaped
    character"; a single quote that is opened and not closed is such a
    line. *)
Theorem run_raises_on_a_rejected_line :
  (forall line e s,
     Shlex.split line = Raise e ->
     run line s = (Raise e, s)
     /\ (e = ValueError "No closing quotation"
         \/ e = ValueError "No escaped character"))
  /\ (forall command text s,
        is_word command = true ->
        no_single_quote text = true ->
        run (command ++ " '" ++ text) s
        = (Raise (ValueError "No closing quotation"), s)).
Proof.
  assert (Hraise : forall line e s,
             Shlex.split line = Raise e -> run line s = (Raise e, s)).
  { intros line e s Hsplit. unfold run, bind, lift. by rewrite Hsplit. }
  split.
  - intros line e s Hsplit. split; [by apply Hraise|].
    by eapply read_tokens_errors.
  - intros command text s Hcommand Htext.
    apply Hraise. by apply split_single_quoted.
Qed.

End TokenizedLines.

(* ------------------------------------------------------------------ *)
(** * Sessions *)

Section SessionProperties.

Context {W H R : Type} {C : Collaborator W H R}.

Implicit Types (s : system W H) (args : list string) (e : exn).

Local Abbreviation quiet := (quiet W H).
Local Abbreviation keeps_session_ok := (keeps_session_ok W H).

Lemma quiet_ret {A} (a : A) : quiet (ret a).
Proof. by intros s r s' [= <- <-]. Qed.

Lemma quiet_raise {A} e : quiet (raise (A := A) e).
Proof. by intros s r s' [= <- <-]. Qed.

Lemma quiet_bind {A B} (m : M A) (k : A -> M B) :
  quiet m -> (forall a, quiet (k a)) -> quiet (bind m k).
Proof.
  intros Hm Hk s r s'. unfold bind.
  destruct (m s) as [[a|e] s1] eqn:Hms; intros Hrun.
  - destruct (Hm _ _ _ Hms) as [Hr1 Hc1], (Hk a _ _ _ Hrun) as [Hr2 Hc2].
    split; by etrans.
  - injection Hrun as <- <-. by eapply Hm.
Qed.

Lemma quiet_log ev : quiet (log ev).
Proof. by intros s r s' [= <- <-]. Qed.

Lemma quiet_get_runner : quiet get_runner.
Proof. by intros s r s' [= <- <-]. Qed.

Lemma quiet_get_config : quiet get_config.
Proof. by intros s r s' [= <- <-]. Qed.

Lemma quiet_client_call {A} cl (f : W -> answer A * W) :
  quiet (client_call cl f).
Proof.
  intros s r s'. unfold client_call.
  by destruct (f (world s)) as [[a|msg] w]; intros [= <- <-].
Qed.

Lemma quiet_self_client name : quiet (self_client name).
Proof.
  intros s r s'. unfold self_client.
  by destruct (client (runner s)); intros [= <- <-].
Qed.

Lemma quiet_getattr {A} cls name (a : attr A) : quiet (getattr cls name a).
Proof. destruct a; [apply quiet_raise|apply quiet_ret]. Qed.

Lemma quiet_getitem {A} what (l : list A) i : quiet (getitem what l i).
Proof.
  unfold getitem. destruct (l !! i); [apply quiet_ret|apply quiet_raise].
Qed.

Lemma quiet_for_each {A} (l : list A) (body : A -> M unit) :
  (forall x, quiet (body x)) -> quiet (for_each l body).
Proof.
  intros Hbody. induction l as [|x l IH]; cbn [for_each].
  - apply quiet_ret.
  - apply quiet_bind; [apply Hbody|]. by intros _.
Qed.

Ltac quiet_step :=
  first
    [ apply quiet_ret
    | apply quiet_raise
    | apply quiet_log
    | apply quiet_get_runner
    | apply quiet_get_config
    | apply quiet_client_call
    | apply quiet_self_client
    | apply quiet_getattr
    | apply quiet_getitem
    | apply quiet_for_each; intros
    | apply quiet_bind; [|intros]
    | case_match ].

(** Every handler but [connect] and [start] leaves the session handle
    alone. *)
Lemma quiet_help args : quiet (help args).
Proof. unfold help, print. repeat quiet_step. Qed.

Lemma quiet_exit args : quiet (exit args).
Proof. unfold exit, print. repeat quiet_step. Qed.

Lemma quiet_echo args : quiet (echo args).
Proof. unfold echo, print. repeat quiet_step. Qed.

Lemma quiet_login args : quiet (login args).
Proof. unfold login, print. repeat quiet_step. Qed.

Lemma quiet_status args : quiet (status args).
Proof. unfold status, print. repeat quiet_step. Qed.

Lemma quiet_patron_info args : quiet (patron_info args).
Proof. unfold patron_info, print. repeat quiet_step. Qed.

Lemma quiet_keeps_session_ok {A} (m : M A) : quiet m -> keeps_session_ok m.
Proof.
  intros Hm s r s' Hok Hrun. destruct (Hm _ _ _ Hrun) as [Hr Hc].
  unfold session_ok. by rewrite Hr, Hc.
Qed.

Lemma keeps_session_ok_bind {A B} (m : M A) (k : A -> M B) :
  keeps_session_ok m -> (forall a, keeps_session_ok (k a)) ->
  keeps_session_ok (bind m k).
Proof.
  intros Hm Hk s r s' Hok. unfold bind.
  destruct (m s) as [[a|e] s1] eqn:Hms; intros Hrun.
  - eapply Hk; [|exact Hrun]. by eapply Hm.
  - injection Hrun as <- <-. by eapply Hm.
Qed.

(** [connect] holds a client only once the port has been read as a
    number. *)
Lemma connect_keeps_session_ok args : keeps_session_ok (connect args).
Proof.
  intros s r s' Hok.
  unfold connect, bind, get_config, lift, client_call, try_except,
    self_client, set_client, print, log, ret, raise; cbn.
  destruct (PyInt.int (port (config s))) as [p|e] eqn:Hport; cbn.
  - destruct (Client _ _ _) as [[c|msg] w1]; cbn.
    + destruct (client_connect _ _) as [[[]|msg] w2]; cbn;
        intros [= <- <-]; unfold session_ok; cbn; eauto.
    + by intros [= <- <-].
  - by intros [= <- <-].
Qed.

Lemma start_keeps_session_ok args : keeps_session_ok (start args).
Proof.
  unfold start.
  apply keeps_session_ok_bind; [apply connect_keeps_session_ok|]. intros r1.
  destruct (truthy r1); [|apply quiet_keeps_session_ok, quiet_ret].
  apply keeps_session_ok_bind;
    [apply quiet_keeps_session_ok, quiet_login|]. intros r2.
  destruct (truthy r2); [|apply quiet_keeps_session_ok, quiet_ret].
  apply keeps_session_ok_bind;
    [apply quiet_keeps_session_ok, quiet_status|]. intros _.
  apply quiet_keeps_session_ok, quiet_ret.
Qed.

Lemma body_keeps_session_ok m args : keeps_session_ok (body m args).
Proof.
  destruct m; cbn [body];
    first [ apply connect_keeps_session_ok
          | apply start_keeps_session_ok
          | apply quiet_keeps_session_ok;
            auto using quiet_help, quiet_echo, quiet_exit, quiet_login,
              quiet_status, quiet_patron_info ].
Qed.

Lemma run_keeps_session_ok line : keeps_session_ok (run line).
Proof.
  unfold run.
  apply keeps_session_ok_bind.
  { apply quiet_keeps_session_ok. destruct (Shlex.split line);
      [apply quiet_ret|apply quiet_raise]. }
  intros tokens. apply keeps_session_ok_bind;
    [apply quiet_keeps_session_ok, quiet_getitem|]. intros command.
  apply keeps_session_ok_bind;
    [apply quiet_keeps_session_ok, quiet_get_runner|]. intros self.
  destruct (commands self !! command) as [ent|].
  - rewrite call_method_body. apply body_keeps_session_ok.
  - apply quiet_keeps_session_ok. unfold print_stderr. repeat quiet_step.
Qed.

Lemma interact_keeps_session_ok lines : keeps_session_ok (interact lines).
Proof.
  induction lines as [|line lines IH]; cbn [interact].
  - apply quiet_keeps_session_ok, quiet_ret.
  - apply keeps_session_ok_bind; [apply run_keeps_session_ok|]. by intros _.
Qed.

(** X17.  Whatever lines are typed, and whether the session ends normally
    or by an exception, the registry and the configuration at the end are
    those of the beginning: no command registers, removes or configures
    anything. *)
Theorem session_keeps_registry_and_configuration lines s r s' :
  interact lines s = (r, s') ->
  commands (runner s') = commands (runner s)
  /\ commands_sorted (runner s') = commands_sorted (runner s)
  /\ config s' = config s.
Proof.
  intros Hrun. by destruct (steady_interact lines _ _ _ Hrun) as [Hsame _].
Qed.


End SessionProperties.

(* ------------------------------------------------------------------ *)
(** * Start-up *)

Lemma last_cons_default {A} (d x : A) (l : list A) :
  default d (last (x :: l)) = default x (last l).
Proof. rewrite last_cons. by destruct (last l). Qed.

Lemma autostart_is_no_other_option o :
  is_autostart_option o = true ->
  is_help_option o = false /\ is_config_option o = false.
Proof.
  unfold is_autostart_option.
  intros [->%String.eqb_eq | ->%String.eqb_eq]%orb_prop; split; reflexivity.
Qed.

Lemma config_is_no_other_option o :
  is_config_option o = true ->
  is_help_option o = false /\ is_autostart_option o = false.
Proof.
  unfold is_config_option.
  intros [->%String.eqb_eq | ->%String.eqb_eq]%orb_prop; split; reflexivity.
Qed.

Lemma configfile_with_options opts c :
  configfile (with_options opts c)
  = default (configfile c) (last (config_values opts)).
Proof. reflexivity. Qed.

Lemma autostart_with_options opts c :
  autostart (with_options opts c)
  = autostart c || existsb (fun oa => is_autostart_option (fst oa)) opts.
Proof. reflexivity. Qed.

Lemma with_options_nil c : with_options [] c = c.
Proof. destruct c. unfold with_options; cbn. by rewrite orb_false_r. Qed.

Section StartUpProperties.

Context {W H R : Type} {C : Collaborator W H R}.

Implicit Types (s : system W H) (opts : list (string * string)).

(** One setting, read by the loop of [read_ops]. *)
Lemma read_option_setting oa opts s :
  is_setting oa = true ->
  read_option (fst oa) (snd oa) s
  = (Ok tt, with_config s (with_options [oa] (config s)))
  /\ with_options opts (with_options [oa] (config s))
     = with_options (oa :: opts) (config s).
Proof.
  destruct oa as [o a]. unfold is_setting, read_option. cbn [fst snd].
  intros [Ho|Ho]%orb_prop.
  - destruct (autostart_is_no_other_option _ Ho) as [Hh Hc].
    fold (is_help_option o) (is_autostart_option o) (is_config_option o).
    rewrite Hh, Ho. unfold with_options, config_values; cbn.
    rewrite Ho, Hc; cbn. split.
    + unfold bind, get_config, set_config, with_config; cbn.
      by rewrite orb_true_r.
    + by rewrite orb_true_r.
  - destruct (config_is_no_other_option _ Ho) as [Hh Ha].
    fold (is_help_option o) (is_autostart_option o) (is_config_option o).
    rewrite Hh, Ha, Ho. unfold with_options, config_values; cbn.
    rewrite Ho, Ha; cbn. split.
    + unfold bind, get_config, set_config, with_config; cbn.
      by rewrite orb_false_r.
    + rewrite orb_false_r. f_equal. apply eq_sym, last_cons_default.
Qed.

Lemma for_each_settings opts s :
  forallb is_setting opts = true ->
  for_each opts (fun oa => read_option (fst oa) (snd oa)) s
  = (Ok tt, with_config s (with_options opts (config s))).
Proof.
  revert s. induction opts as [|oa opts IH]; intros s.
  - intros _. cbn. unfold ret. rewrite with_options_nil. by destruct s.
  - cbn [forallb for_each]. intros [Hoa Hopts]%andb_prop.
    destruct (read_option_setting oa opts s Hoa) as [Hread Hwith].
    rewrite (bind_Ok _ _ _ _ _ Hread), (IH _ Hopts). cbn.
    by rewrite Hwith.
Qed.

(** X20.  When [getopt] returns settings only, [read_ops] prints nothing
    and changes two attributes at most: [configfile] becomes the value of
    the last [-c] or [--config] (it keeps its value when there is none)
    and [autostart] becomes true when [-a] or [--autostart] is among the
    options.  The left-over arguments are ignored. *)
Theorem read_ops_applies_the_settings opts args s :
  forallb is_setting opts = true ->
  read_ops (Options opts args) s
  = (Ok tt, with_config s (with_options opts (config s))).
Proof.
  intros Hopts. unfold read_ops, bind at 1, ret.
  by apply for_each_settings.
Qed.

(** X21.  At the first [-h] or [--help], [read_ops] prints the usage text
    and raises [SystemExit(0)]: the settings before it have been applied,
    the options after it are not looked at. *)
Theorem read_ops_stops_at_help before o a after args s :
  forallb is_setting before = true ->
  is_help_option o = true ->
  read_ops (Options (before ++ (o, a) :: after) args) s
  = (Raise (SystemExit 0),
     emitted (with_config s (with_options before (config s)))
       [Stdout usage_text]).
Proof.
  intros Hbefore Ho. unfold read_ops, bind at 1, ret.
  revert s. induction before as [|oa before IH]; intros s.
  - cbn [app for_each]. unfold bind at 1, read_option. cbn [fst snd].
    fold (is_help_option o). rewrite Ho. cbn.
    rewrite with_options_nil. by destruct s.
  - cbn [forallb] in Hbefore. apply andb_prop in Hbefore as [Hoa Hbefore].
    cbn [app for_each].
    destruct (read_option_setting oa before s Hoa) as [Hread Hwith].
    rewrite (bind_Ok _ _ _ _ _ Hread), (IH Hbefore). cbn.
    by rewrite Hwith.
Qed.

(** X22.  When [getopt] rejects the command line, the script prints the
    error on the error stream and the usage text, and exits with status 2:
    no configuration file is loaded, nothing is sent to the client and no
    line is read. *)
Theorem main_rejects_a_bad_command_line msg files lines s :
  main (GetoptError msg) files lines s
  = (Raise (SystemExit 2), emitted s [Stderr msg; Stdout usage_text]).
Proof.
  unfold main, read_ops, usage, bind, print_stderr, print, log, raise,
    emitted; cbn.
  by rewrite <- app_assoc.
Qed.

(** The script after the options: the file is loaded; when the loader
    returned, [start] is run if asked for, then the loop; when the loader
    raised, the script ends there. *)
Lemma main_settings opts args files lines s :
  forallb is_setting opts = true ->
  main (Options opts args) files lines s
  = let c := with_options opts (config s) in
    let loaded := setup (files (configfile c)) c in
    let s1 := with_config s (snd loaded) in
    match fst loaded with
    | Raise e => (Raise e, s1)
    | Ok _ =>
        if autostart c
        then bind (start []) (fun _ => interact lines) s1
        else interact lines s1
    end.
Proof.
  intros Hopts. unfold main.
  assert (Hread : read_ops (Options opts args) s
                  = (Ok tt, with_config s (with_options opts (config s)))).
  { unfold read_ops, bind at 1, ret. by apply for_each_settings. }
  rewrite (bind_Ok _ _ _ _ _ Hread).
  cbn zeta.
  set (c := with_options opts (config s)).
  destruct (setup_keeps_options (files (configfile c)) c) as [_ Hauto].
  clearbody c. clear Hread.
  unfold ConfigHandler_setup, bind at 1 2 3 4, get_config, set_config,
    with_config, lift; cbn.
  destruct (setup (files (configfile c)) c) as [[[]|e] c'];
    cbn in *; [|done].
  rewrite Hauto. destruct (autostart c); [|done].
  unfold bind, ret.
  by destruct (start [] _) as [[r|e] s2].
Qed.

(** X23.  With settings only on the command line and autostart neither
    asked for nor already on, the script loads the file the settings name
    (the file of the last [-c] or [--config], the default otherwise).
    When the loader returns, the script is the read loop run on the
    configuration object as the loader left it: nothing is printed and
    nothing is sent to the client before the first line is read.  When
    the loader raises, that exception ends the script: nothing is printed
    or sent, and no line is read. *)
Theorem main_without_autostart_is_the_loop opts args files lines s :
  forallb is_setting opts = true ->
  autostart (config s) = false ->
  existsb (fun oa => is_autostart_option (fst oa)) opts = false ->
  (forall loaded,
     setup (files (default (configfile (config s))
                     (last (config_values opts))))
       (with_options opts (config s))
     = (Ok tt, loaded) ->
     main (Options opts args) files lines s
     = interact lines (with_config s loaded))
  /\ (forall e loaded,
        setup (files (default (configfile (config s))
                        (last (config_values opts))))
          (with_options opts (config s))
        = (Raise e, loaded) ->
        main (Options opts args) files lines s
        = (Raise e, with_config s loaded)).
Proof.
  intros Hopts Hoff Hnone.
  split; [intros loaded Hsetup|intros e loaded Hsetup];
    rewrite (main_settings _ _ _ _ _ Hopts); cbn zeta;
    rewrite configfile_with_options, Hsetup; cbn [fst snd];
    [by rewrite autostart_with_options, Hoff, Hnone|done].
Qed.

(** X24.  With autostart asked for, the script loads the file the
    settings name.  When the loader returns, the script runs [start]
    once, with no argument, on the configuration object as the loader
    left it, before the first line is read; the loop then runs whatever
    [start] returned, and does not run when [start] raised.  When the
    loader raises, that exception ends the script: [start] is not run and
    no line is read. *)
Theorem main_with_autostart_starts_first opts args files lines s :
  forallb is_setting opts = true ->
  existsb (fun oa => is_autostart_option (fst oa)) opts = true ->
  (forall loaded,
     setup (files (default (configfile (config s))
                     (last (config_values opts))))
       (with_options opts (config s))
     = (Ok tt, loaded) ->
     main (Options opts args) files lines s
     = match start [] (with_config s loaded) with
       | (Ok _, s2) => interact lines s2
       | (Raise e, s2) => (Raise e, s2)
       end)
  /\ (forall e loaded,
        setup (files (default (configfile (config s))
                        (last (config_values opts))))
          (with_options opts (config s))
        = (Raise e, loaded) ->
        main (Options opts args) files lines s
        = (Raise e, with_config s loaded)).
Proof.
  intros Hopts Hauto.
  split; [intros loaded Hsetup|intros e loaded Hsetup];
    rewrite (main_settings _ _ _ _ _ Hopts); cbn zeta;
    rewrite configfile_with_options, Hsetup; cbn [fst snd];
    [by rewrite autostart_with_options, Hauto, orb_true_r|done].
Qed.

(** X25.  Started with autostart on a file that the libraries accept and
    that has no [client] section, the script ends before the first
    prompt: [start] reaches [int(conf.port)] with the port [None], and
    the [TypeError] leaves the script with nothing printed, nothing sent
    and no line read. *)
Theorem main_autostart_without_client_section opts args files lines w
    sections :
  forallb is_setting opts = true ->
  existsb (fun oa => is_autostart_option (fst oa)) opts = true ->
  files (default "pysip2-client.ini" (last (config_values opts)))
  = {| fileConfig := None; read := Ok sections |} ->
  sections !! "client" = None ->
  main (Options opts args) files lines (initial_system w)
  = (Raise (TypeError "int() argument must be a string, a bytes-like object or a real number, not 'NoneType'"),
     with_config (initial_system w)
       (with_options opts ConfigHandler_init)).
Proof.
  intros Hopts Hauto Hfile Hsections.
  rewrite (main_settings _ _ _ _ _ Hopts). cbn zeta.
  rewrite configfile_with_options. cbn [initial_system config configfile
    ConfigHandler_init].
  unfold setup. rewrite Hfile. cbn [fileConfig read]. rewrite Hsections.
  cbn [fst snd]. rewrite autostart_with_options, Hauto, orb_true_r.
  reflexivity.
Qed.

End StartUpProperties.

(* ------------------------------------------------------------------ *)
(** ** Concrete runs of the further properties *)

Lemma connect_success_replaces_session_witness :
  connect (C := online_server) [] (boot sample_file)
  = (Ok PyTrue, after_connect)
  /\ client (runner after_connect) = Some 6001
  /\ trace after_connect
     = [Called (call_Client (Some "localhost") 6001);
        Called (call_set_default_institution (Some "example"));
        Called call_connect;
        Stdout "Connect OK"].
Proof.
  pose proof (connect_success_replaces_session (C := online_server) []
                (boot sample_file) 6001 6001 1%nat 3%nat
                eq_refl eq_refl eq_refl) as Hconnect.
  split; [rewrite Hconnect; vm_compute; reflexivity|].
  split; reflexivity.
Defined.

Lemma connect_constructor_failure_escapes_witness :
  connect (C := no_client_library) [] after_connect
  = (Raise (ClientError "SSL context unavailable"),
     {| runner := runner after_connect;
        config := config after_connect;
        world := 4%nat;
        trace := trace after_connect
                 ++ [Called (call_Client (Some "localhost") 6001)] |})
  /\ client (runner after_connect) = Some 6001.
Proof.
  split; [|reflexivity].
  apply (connect_constructor_failure_escapes (C := no_client_library) []
           after_connect 6001 "SSL context unavailable" 4%nat);
    reflexivity.
Defined.

Lemma login_reports_client_answer_witness :
  login (C := online_server) [] after_connect
  = (Ok PyTrue,
     {| runner := runner after_connect;
        config := config after_connect;
        world := 4%nat;
        trace := trace after_connect
                 ++ [Called (call_login (Some "sip") (Some "secret")
                               (Some "main"));
                     Stdout "Login OK"] |}).
Proof.
  apply (login_reports_client_answer (C := online_server) [] after_connect
           6001 (Some "main") true 4%nat);
    reflexivity.
Defined.

Lemma status_online_exactly_on_Y_witness :
  status (C := online_server) [] after_connect
  = (Ok PyTrue,
     {| runner := runner after_connect;
        config := config after_connect;
        world := 4%nat;
        trace := trace after_connect
                 ++ [Called call_sc_status; Stdout "Server is online"] |})
  /\ status (C := offline_server) [] after_connect
     = (Ok PyFalse,
        {| runner := runner after_connect;
           config := config after_connect;
           world := 4%nat;
           trace := trace after_connect
                    ++ [Called call_sc_status;
                        Stdout "Server is NOT online";
                        Stdout "98YYYNNN"] |}).
Proof.
  split.
  - apply (status_online_exactly_on_Y (C := online_server) [] after_connect
             6001 "98YYYNNN" 4%nat (Some "Y"));
      reflexivity.
  - apply (status_online_exactly_on_Y (C := offline_server) [] after_connect
             6001 "98YYYNNN" 4%nat (Some "N"));
      reflexivity.
Defined.

Lemma status_and_patron_info_need_a_session_witness :
  status (C := online_server) [] (boot sample_file)
  = (Raise (NoneType_has_no "sc_status"), boot sample_file)
  /\ patron_info (C := online_server) ["21000123"] (boot sample_file)
     = (Raise (NoneType_has_no "patron_info_request"), boot sample_file).
Proof.
  apply (status_and_patron_info_need_a_session (C := online_server)
           [] "21000123" [] (boot sample_file)).
  reflexivity.
Defined.

Lemma client_failure_escapes_other_handlers_witness :
  login (C := dropping_server) [] after_connect
  = (Raise (ClientError "Connection reset"),
     {| runner := runner after_connect;
        config := config after_connect;
        world := 4%nat;
        trace := trace after_connect
                 ++ [Called (call_login (Some "sip") (Some "secret")
                               (Some "main"))] |})
  /\ status (C := dropping_server) [] after_connect
     = (Raise (ClientError "Connection reset"),
        {| runner := runner after_connect;
           config := config after_connect;
           world := 4%nat;
           trace := trace after_connect ++ [Called call_sc_status] |}).
Proof.
  pose proof (client_failure_escapes_other_handlers (C := dropping_server)
                [] "21000123" [] after_connect 6001 eq_refl)
    as (Hlogin & Hstatus & _).
  split.
  - apply (Hlogin (Some "main") "Connection reset" 4%nat); reflexivity.
  - apply (Hstatus "Connection reset" 4%nat); reflexivity.
Defined.

Lemma start_success_sequence_witness :
  trace (snd (start (C := online_server) [] (boot sample_file)))
  = [Called (call_Client (Some "localhost") 6001);
     Called (call_set_default_institution (Some "example"));
     Called call_connect;
     Stdout "Connect OK";
     Called (call_login (Some "sip") (Some "secret") (Some "main"));
     Stdout "Login OK";
     Called call_sc_status;
     Stdout "Server is online"]
  /\ fst (start (C := online_server) [] (boot sample_file)) = Ok PyNone.
Proof.
  rewrite (start_success_sequence (C := online_server) [] (boot sample_file)
             6001 6001 1%nat 3%nat (Some "main") 4%nat "98YYYNNN" 5%nat
             eq_refl eq_refl eq_refl eq_refl eq_refl eq_refl eq_refl).
  split; reflexivity.
Defined.

Lemma add_command_registers_witness :
  commands (add_command "status" m_status "Ask again"
              (CommandRunner_init Z)) !! "status"
  = Some {| fn := m_status; desc := "Ask again" |}
  /\ commands (add_command "status" m_status "Ask again"
                 (CommandRunner_init Z)) !! "login"
     = commands (CommandRunner_init Z) !! "login"
  /\ well_formed (add_command "status" m_status "Ask again"
                    {| client := None (A := Z); commands := ∅;
                       commands_sorted := [] |}).
Proof.
  pose proof (add_command_registers (H := Z) "status" m_status "Ask again"
                (CommandRunner_init Z)) as (Hsame & Hother & _).
  split; [exact Hsame|]. split; [by apply Hother|].
  apply (add_command_registers (H := Z) "status" m_status "Ask again").
  constructor.
Defined.

Lemma add_command_twice_lists_twice_witness :
  help [] twice_registered
  = (Ok PyTrue,
     emitted twice_registered
       [Stdout "Commands:"; Stdout "  ping - second";
        Stdout "  ping - second"]).
Proof.
  exact (proj2 (proj2 (add_command_twice_lists_twice
                         "ping" m_echo "first" m_status "second" []
                         twice_registered eq_refl))).
Defined.

Lemma help_lists_every_registration_witness :
  fst (help [] (boot sample_file)) = Ok PyTrue
  /\ length (trace (snd (help [] (boot sample_file)))) = 10%nat.
Proof.
  rewrite (help_lists_every_registration [] (boot sample_file)).
  - split; reflexivity.
  - apply (bool_decide_unpack _). vm_compute. exact I.
Defined.

Lemma run_dispatches_on_the_catalogue_witness :
  run (C := online_server) "HELP" (boot sample_file)
  = (Ok PyNone, emitted (boot sample_file) [Stderr "Command not found: HELP"])
  /\ run (C := online_server) "patron-info" (boot sample_file)
     = patron_info (C := online_server) [] (boot sample_file).
Proof.
  split.
  - exact (run_dispatches_on_the_catalogue (C := online_server)
             "HELP" "HELP" [] (boot sample_file) eq_refl eq_refl).
  - exact (run_dispatches_on_the_catalogue (C := online_server)
             "patron-info" "patron-info" [] (boot sample_file)
             eq_refl eq_refl).
Defined.

Lemma exit_and_quit_end_the_session_witness :
  interact (C := online_server) ["quit now"; "help"] (boot sample_file)
  = (Raise (SystemExit 0), emitted (boot sample_file) [Stdout "Goodbye"]).
Proof.
  exact (proj2 (exit_and_quit_end_the_session (C := online_server)
                  "quit now" "quit" ["now"] ["help"] (boot sample_file)
                  eq_refl eq_refl (or_intror eq_refl))).
Defined.

Lemma run_passes_the_words_witness :
  run (C := online_server) "patron-info 21000123 x" after_connect
  = patron_info (C := online_server) ["21000123"; "x"] after_connect.
Proof.
  apply (run_passes_the_words (C := online_server) "patron-info"
           ["21000123"; "x"] after_connect
           {| fn := m_patron_info;
              desc := "Send a 63 Patron Information Request message." |}).
  - reflexivity.
  - repeat constructor.
  - vm_compute. reflexivity.
Defined.

Lemma run_ignores_a_comment_witness :
  run (C := online_server) "status# is the server up?" after_connect
  = run (C := online_server) "status" after_connect
  /\ Shlex.split "21000123#4" = Ok ["21000123"].
Proof.
  split.
  - exact (proj2 (proj1 (run_ignores_a_comment (C := online_server))
                    "status" " is the server up?" ["status"] after_connect
                    eq_refl eq_refl)).
  - exact (proj2 (run_ignores_a_comment (C := online_server))
             "21000123" "4" eq_refl eq_refl).
Defined.

Lemma run_keeps_a_single_quoted_argument_witness :
  run (C := online_server) "patron-info '21000 123 # x'" after_connect
  = patron_info (C := online_server) ["21000 123 # x"] after_connect.
Proof.
  apply (run_keeps_a_single_quoted_argument (C := online_server)
           "patron-info" "21000 123 # x" after_connect
           {| fn := m_patron_info;
              desc := "Send a 63 Patron Information Request message." |}).
  - reflexivity.
  - reflexivity.
  - vm_compute. reflexivity.
Defined.

Lemma run_raises_on_a_rejected_line_witness :
  run (C := online_server) "echo 'never closed" (boot sample_file)
  = (Raise (ValueError "No closing quotation"), boot sample_file).
Proof.
  exact (proj2 (run_raises_on_a_rejected_line (C := online_server))
           "echo" "never closed" (boot sample_file) eq_refl eq_refl).
Defined.

Lemma session_keeps_registry_and_configuration_witness :
  commands (runner (snd (interact (C := online_server) sample_session
                           (boot sample_file))))
  = commands (runner (boot sample_file))
  /\ config (snd (interact (C := online_server) sample_session
                    (boot sample_file)))
     = config (boot sample_file).
Proof.
  destruct (session_keeps_registry_and_configuration (C := online_server)
              sample_session (boot sample_file) _ _
              (surjective_pairing _)) as (Hcommands & _ & Hconfig).
  split; assumption.
Defined.


Lemma read_ops_applies_the_settings_witness :
  config (snd (read_ops
                 (Options [("-c", "a.ini"); ("--autostart", "");
                           ("--config", "branch.ini")] ["left over"])
                 (initial_system (H := Z) 0%nat)))
  = {| configfile := "branch.ini";
       server := None; port := None; institution := None;
       username := None; password := None;
       autostart := true;
       location_code := Unset |}.
Proof.
  rewrite (read_ops_applies_the_settings
             [("-c", "a.ini"); ("--autostart", "");
              ("--config", "branch.ini")] ["left over"]
             (initial_system (H := Z) 0%nat) eq_refl).
  reflexivity.
Defined.

Lemma read_ops_stops_at_help_witness :
  read_ops
    (Options [("-a", ""); ("--help", ""); ("-c", "branch.ini")] [])
    (initial_system (H := Z) 0%nat)
  = (Raise (SystemExit 0),
     emitted (with_config (initial_system (H := Z) 0%nat)
                (with_options [("-a", "")] ConfigHandler_init))
       [Stdout usage_text]).
Proof.
  exact (read_ops_stops_at_help
           [("-a", "")] "--help" "" [("-c", "branch.ini")] []
           (initial_system (H := Z) 0%nat) eq_refl eq_refl).
Defined.

Lemma main_without_autostart_is_the_loop_witness :
  main (C := online_server) (Options [("-c", "branch.ini")] [])
    sample_files ["echo hi there"] (initial_system (H := Z) 0%nat)
  = (Ok tt,
     {| runner := CommandRunner_init Z;
        config := {| configfile := "branch.ini";
                     server := Some "localhost"; port := Some "6001";
                     institution := Some "example"; username := Some "sip";
                     password := Some "secret";
                     autostart := false;
                     location_code := Assigned (Some "main") |};
        world := 0%nat;
        trace := [Stdout "echo args=['hi', 'there']"] |})
  /\ main (C := online_server) (Options [("-c", "missing.ini")] [])
       sample_files ["echo hi there"] (initial_system (H := Z) 0%nat)
     = (Raise (KeyError "formatters"),
        with_config (initial_system (H := Z) 0%nat)
          (with_options [("-c", "missing.ini")] ConfigHandler_init)).
Proof.
  split.
  - rewrite (proj1 (main_without_autostart_is_the_loop (C := online_server)
                      [("-c", "branch.ini")] [] sample_files
                      ["echo hi there"] (initial_system (H := Z) 0%nat)
                      eq_refl eq_refl eq_refl)
               _ eq_refl).
    vm_compute. reflexivity.
  - exact (proj2 (main_without_autostart_is_the_loop (C := online_server)
                    [("-c", "missing.ini")] [] sample_files
                    ["echo hi there"] (initial_system (H := Z) 0%nat)
                    eq_refl eq_refl eq_refl)
             _ _ eq_refl).
Defined.

Lemma main_with_autostart_starts_first_witness :
  trace (snd (main (C := online_server) (Options [("-a", "")] [])
                sample_files ["echo hi there"] (initial_system (H := Z) 0%nat)))
  = [Called (call_Client (Some "localhost") 6001);
     Called (call_set_default_institution (Some "example"));
     Called call_connect;
     Stdout "Connect OK";
     Called (call_login (Some "sip") (Some "secret") (Some "main"));
     Stdout "Login OK";
     Called call_sc_status;
     Stdout "Server is online";
     Stdout "echo args=['hi', 'there']"]
  /\ main (C := online_server)
       (Options [("--config", "missing.ini"); ("-a", "")] [])
       sample_files ["echo hi there"] (initial_system (H := Z) 0%nat)
     = (Raise (KeyError "formatters"),
        with_config (initial_system (H := Z) 0%nat)
          (with_options [("--config", "missing.ini"); ("-a", "")]
             ConfigHandler_init)).
Proof.
  split.
  - rewrite (proj1 (main_with_autostart_starts_first (C := online_server)
                      [("-a", "")] [] sample_files ["echo hi there"]
                      (initial_system (H := Z) 0%nat) eq_refl eq_refl)
               _ eq_refl).
    vm_compute. reflexivity.
  - exact (proj2 (main_with_autostart_starts_first (C := online_server)
                    [("--config", "missing.ini"); ("-a", "")] []
                    sample_files ["echo hi there"]
                    (initial_system (H := Z) 0%nat) eq_refl eq_refl)
             _ _ eq_refl).
Defined.

Lemma main_autostart_without_client_section_witness :
  fst (main (C := online_server)
         (Options [("--config", "logging.ini"); ("-a", "")] [])
         sample_files ["help"] (initial_system (H := Z) 0%nat))
  = Raise (TypeError "int() argument must be a string, a bytes-like object or a real number, not 'NoneType'")
  /\ trace (snd (main (C := online_server)
                   (Options [("--config", "logging.ini"); ("-a", "")] [])
                   sample_files ["help"] (initial_system (H := Z) 0%nat)))
     = [].
Proof.
  rewrite (main_autostart_without_client_section (C := online_server)
             [("--config", "logging.ini"); ("-a", "")] [] sample_files
             ["help"] 0%nat logging_only_file eq_refl eq_refl eq_refl
             eq_refl).
  split; reflexivity.
Defined.
